(** * notihub: the Pinpoint push-message builders, the endpoint lookups,
      the SMS-gateway adapter and the notifier factory.

    A shallow embedding of [notihub/notifiers/aws/clients/pinpoint_client.py]
    and [notihub/client.py].  Python values are an inductive type, Python
    dictionaries are insertion-ordered association lists, exceptions are an
    error type, and calls to the provider SDK are logged in an explicit
    trace. *)

From Stdlib Require Import String Ascii List ZArith Bool Lia DecimalString.
Import ListNotations.
Open Scope string_scope.

Local Set Warnings "-register-all".

(** ** Python values *)

(** The values that reach the builders.  [custom_data] is typed
    [Dict[str, Any]]: besides the JSON-shaped values there is [PyOpaque], any
    object [json.dumps] rejects (a set, a datetime, ...), carrying the name of
    its type.  A [str] is a sequence of code points; here every [ascii] is
    one code point below 256.  Floats are left out. *)
Inductive value : Type :=
| PyNone
| PyBool (b : bool)
| PyInt (n : Z)
| PyStr (s : string)
| PyList (items : list value)
| PyDict (items : list (string * value))
| PyOpaque (type_name : string).

(** A [dict] with [str] keys, in insertion order. *)
Definition dict : Type := list (string * value).

(** ** Exceptions and results *)

Inductive exn : Type :=
| TypeError (msg : string)
| KeyError (key : string)
| NotFoundException (response : value)
| ClientError (code : string) (response : value)
| ValidationError (msg : string)
| NotSupported
| NoRegionError.

Inductive outcome (A : Type) : Type :=
| Ok (a : A)
| Raise (e : exn).
Arguments Ok {A} a.
Arguments Raise {A} e.

Definition obind {A B} (m : outcome A) (k : A -> outcome B) : outcome B :=
  match m with
  | Ok a => k a
  | Raise e => Raise e
  end.

Declare Scope outcome_scope.
Delimit Scope outcome_scope with outcome.
Notation "x <- m ;; k" := (obind m (fun x => k))
  (at level 61, m at next level, right associativity) : outcome_scope.

(** ** Dictionaries *)

(** [d.get(k)]: the value stored under [k], if any. *)
Fixpoint dict_get (k : string) (d : dict) : option value :=
  match d with
  | [] => None
  | (k', v) :: rest => if String.eqb k k' then Some v else dict_get k rest
  end.

(** [d[k] = v]: an existing key keeps its position and takes the new value,
    a new key goes to the end. *)
Fixpoint dict_set (k : string) (v : value) (d : dict) : dict :=
  match d with
  | [] => [(k, v)]
  | (k', v') :: rest =>
      if String.eqb k k' then (k', v) :: rest else (k', v') :: dict_set k v rest
  end.

(** [d.update(other)], also the unpacking [{**d, **other}]. *)
Definition dict_update (d other : dict) : dict :=
  fold_left (fun acc kv => dict_set (fst kv) (snd kv) acc) other d.

(** [del d[k]] on every entry named [k]; used in statements only. *)
Definition dict_remove (k : string) (d : dict) : dict :=
  filter (fun kv => negb (String.eqb k (fst kv))) d.

Definition dict_keys (d : dict) : list string := map fst d.

Definition dict_has (k : string) (d : dict) : bool :=
  match dict_get k d with Some _ => true | None => false end.

(** Keys of a Python dictionary are pairwise distinct. *)
Fixpoint dict_wf (d : dict) : bool :=
  match d with
  | [] => true
  | (k, _) :: rest => negb (dict_has k rest) && dict_wf rest
  end.

(** [d[k]] read on a value: [KeyError] on a missing key, [TypeError] on a
    value that is no dictionary. *)
Definition py_getitem (o : value) (k : string) : outcome value :=
  match o with
  | PyDict d =>
      match dict_get k d with
      | Some v => Ok v
      | None => Raise (KeyError k)
      end
  | _ => Raise (TypeError "object is not subscriptable")
  end.

(** Truth value of an [Optional[str]]: [None] and the empty string are
    false. *)
Definition truthy (s : option string) : bool :=
  match s with
  | Some s' => negb (String.eqb s' "")
  | None => false
  end.

(** An [Optional[str]] as a value: [None] stays [None]. *)
Definition of_opt_str (s : option string) : value :=
  match s with
  | Some s' => PyStr s'
  | None => PyNone
  end.

(** ** json.dumps *)

Definition hex_digit (n : N) : ascii :=
  match n with
  | 0%N => "0" | 1%N => "1" | 2%N => "2" | 3%N => "3" | 4%N => "4"
  | 5%N => "5" | 6%N => "6" | 7%N => "7" | 8%N => "8" | 9%N => "9"
  | 10%N => "a" | 11%N => "b" | 12%N => "c" | 13%N => "d" | 14%N => "e"
  | _ => "f"
  end%char.

(** ['\\u{0:04x}'.format(n)] for a code point below 256. *)
Definition unicode_escape (c : ascii) : string :=
  let n := N_of_ascii c in
  "\u00" ++ String (hex_digit (N.div n 16)) (String (hex_digit (N.modulo n 16)) "").

(** One character under [ensure_ascii=True]: the short escapes, [\uXXXX] for
    everything outside [' '..'~'], the character itself otherwise. *)
Definition escape_char (c : ascii) : string :=
  let n := N_of_ascii c in
  if N.eqb n 34 then "\" ++ String c ""
  else if N.eqb n 92 then "\\"
  else if N.eqb n 8 then "\b"
  else if N.eqb n 12 then "\f"
  else if N.eqb n 10 then "\n"
  else if N.eqb n 13 then "\r"
  else if N.eqb n 9 then "\t"
  else if (N.ltb n 32 || N.ltb 126 n)%bool then unicode_escape c
  else String c "".

Fixpoint escape_chars (s : string) : string :=
  match s with
  | EmptyString => ""
  | String c rest => escape_char c ++ escape_chars rest
  end.

Definition quote : string := String (ascii_of_N 34) "".

Definition encode_basestring_ascii (s : string) : string :=
  quote ++ escape_chars s ++ quote.

(** [int.__repr__]. *)
Definition repr_int (n : Z) : string := NilZero.string_of_int (Z.to_int n).

(** [json.dumps(o)] with the default separators [", "] and [": "]. *)
Fixpoint json_dumps (o : value) : outcome string :=
  match o with
  | PyNone => Ok "null"
  | PyBool true => Ok "true"
  | PyBool false => Ok "false"
  | PyInt n => Ok (repr_int n)
  | PyStr s => Ok (encode_basestring_ascii s)
  | PyList l =>
      let fix chunks (l : list value) : outcome (list string) :=
        match l with
        | [] => Ok []
        | x :: rest =>
            (s <- json_dumps x ;; ss <- chunks rest ;; Ok (s :: ss))%outcome
        end in
      (ss <- chunks l ;; Ok ("[" ++ String.concat ", " ss ++ "]"))%outcome
  | PyDict d =>
      let fix chunks (d : dict) : outcome (list string) :=
        match d with
        | [] => Ok []
        | (k, x) :: rest =>
            (s <- json_dumps x ;; ss <- chunks rest ;;
             Ok ((encode_basestring_ascii k ++ ": " ++ s) :: ss))%outcome
        end in
      (ss <- chunks d ;; Ok ("{" ++ String.concat ", " ss ++ "}"))%outcome
  | PyOpaque ty =>
      Raise (TypeError ("Object of type " ++ ty ++ " is not JSON serializable"))
  end.

(** The values [json.dumps] accepts. *)
Fixpoint serializable (o : value) : bool :=
  match o with
  | PyList l => forallb serializable l
  | PyDict d => forallb (fun kv => serializable (snd kv)) d
  | PyOpaque _ => false
  | _ => true
  end.

(** ** Calls to the provider SDK *)

(** The adapters talk to an SDK client they do not implement.  A [transport]
    answers each call, possibly depending on the calls made before; a
    computation [io] runs against a transport and a trace of the calls made
    so far, and extends the trace by every call it makes. *)
Section Effects.
Variable call : Type.

Definition transport : Type := list call -> call -> outcome value.

Definition io (A : Type) : Type :=
  transport -> list call -> outcome A * list call.

Definition ret {A} (a : A) : io A := fun _ trace => (Ok a, trace).

Definition raise {A} (e : exn) : io A := fun _ trace => (Raise e, trace).

Definition bind {A B} (m : io A) (k : A -> io B) : io B :=
  fun t trace =>
    match m t trace with
    | (Ok a, trace') => k a t trace'
    | (Raise e, trace') => (Raise e, trace')
    end.

Definition lift {A} (m : outcome A) : io A := fun _ trace => (m, trace).

(** One SDK call: the transport answers and the call is recorded. *)
Definition perform (c : call) : io value :=
  fun t trace => (t trace c, (trace ++ [c])%list).

(** [try: m except <handled> as e: handler e]: [handler] returns [None] on
    the exceptions the clause does not name. *)
Definition try_except {A} (m : io A) (handler : exn -> option (io A)) : io A :=
  fun t trace =>
    match m t trace with
    | (Ok a, trace') => (Ok a, trace')
    | (Raise e, trace') =>
        match handler e with
        | Some h => h t trace'
        | None => (Raise e, trace')
        end
    end.
End Effects.

Arguments ret {call A} a.
Arguments raise {call A} e.
Arguments bind {call A B} m k.
Arguments lift {call A} m.
Arguments perform {call} c.
Arguments try_except {call A} m handler.

Declare Scope io_scope.
Delimit Scope io_scope with io.
Notation "x <- m ;; k" := (bind m (fun x => k))
  (at level 61, m at next level, right associativity) : io_scope.

(** ** pinpoint_client.py *)

Module Pinpoint.

(** The operations of [self.pinpoint_client] the class uses, with their
    keyword arguments. *)
Inductive call : Type :=
| send_messages (ApplicationId : string) (MessageRequest : value)
| get_endpoint (ApplicationId EndpointId : string)
| get_user_endpoints (ApplicationId UserId : string).

(** [custom_data or {}]: [None] and the empty dictionary give [{}]. *)
Definition or_empty (custom_data : option dict) : dict :=
  match custom_data with
  | Some d => d
  | None => []
  end.

(** [d.copy()]: values are immutable here, the copy is the dictionary. *)
Definition copy (d : dict) : dict := d.

Definition _prepare_custom_data (custom_data : option dict)
    (deep_link_url image_url : option string) : dict :=
  let data := copy (or_empty custom_data) in
  dict_update data
    [("deeplink", of_opt_str deep_link_url); ("image_url", of_opt_str image_url)].

(** Lines 54-62 of [_build_apns_message]. *)
Definition aps_payload (title body : string) (image_url : option string)
    (silent_push : bool) : dict :=
  let aps_payload := [("sound", PyStr "default")] in
  let aps_payload :=
    if silent_push then dict_set "content-available" (PyInt 1) aps_payload
    else dict_set "alert"
           (PyDict [("title", PyStr title); ("body", PyStr body)]) aps_payload in
  if truthy image_url then dict_set "mutable-content" (PyInt 1) aps_payload
  else aps_payload.

(** Line 64: [{"aps": aps_payload, **custom_data}]. *)
Definition payload_root (aps_payload custom_data : dict) : dict :=
  dict_update [("aps", PyDict aps_payload)] custom_data.

Definition _build_apns_message (title body action : string)
    (deep_link_url image_url : option string) (silent_push : bool)
    (custom_data : dict) : outcome dict :=
  (let aps_payload := aps_payload title body image_url silent_push in
   let payload_root := payload_root aps_payload custom_data in
   raw <- json_dumps (PyDict payload_root) ;;
   let message := [("Action", PyStr action); ("RawContent", PyStr raw)] in
   Ok (if truthy deep_link_url
       then dict_set "Url" (of_opt_str deep_link_url) message
       else message))%outcome.

(** Lines 87-103 of [_build_gcm_message]. *)
Definition gcm_payload (title body : string) (image_url : option string)
    (silent_push : bool) (custom_data : dict) (time_to_live : option Z)
    (priority : option string) : dict :=
  let payload_data :=
    dict_set "body" (PyStr body)
      (dict_set "title" (PyStr title) (dict_update [] custom_data)) in
  let gcm_payload := [("data", PyDict payload_data)] in
  let gcm_payload :=
    if silent_push then dict_set "content_available" (PyInt 1) gcm_payload
    else
      let notification := [("title", PyStr title); ("body", PyStr body)] in
      let notification :=
        if truthy image_url
        then dict_set "image" (of_opt_str image_url) notification
        else notification in
      dict_set "notification" (PyDict notification) gcm_payload in
  let gcm_payload :=
    if truthy priority
    then dict_set "priority" (of_opt_str priority) gcm_payload
    else gcm_payload in
  match time_to_live with
  | Some ttl => dict_set "time_to_live" (PyInt ttl) gcm_payload
  | None => gcm_payload
  end.

Definition _build_gcm_message (title body action : string)
    (deep_link_url image_url : option string) (silent_push : bool)
    (custom_data : dict) (time_to_live : option Z) (priority : option string)
    : outcome dict :=
  (let gcm_payload :=
     gcm_payload title body image_url silent_push custom_data time_to_live
       priority in
   raw <- json_dumps (PyDict gcm_payload) ;;
   let message := [("Action", PyStr action); ("RawContent", PyStr raw)] in
   Ok (if truthy deep_link_url
       then dict_set "Url" (of_opt_str deep_link_url) message
       else message))%outcome.

Definition _build_default_message (title body action : string)
    (deep_link_url : option string) : dict :=
  let message :=
    [("Action", PyStr action); ("Title", PyStr title); ("Body", PyStr body)] in
  if truthy deep_link_url
  then dict_set "Url" (of_opt_str deep_link_url) message
  else message.

(** Line 147. *)
Definition push_action (deep_link_url : option string) : string :=
  if truthy deep_link_url then "DEEP_LINK" else "OPEN_APP".

(** Line 178: [{endpoint_id: {} for endpoint_id in endpoint_ids}]. *)
Definition endpoints (endpoint_ids : list string) : dict :=
  fold_left (fun acc endpoint_id => dict_set endpoint_id (PyDict []) acc)
    endpoint_ids [].

(** Lines 147-184 of [send_pinpoint_push_notification]: the envelope. *)
Definition message_request (endpoint_ids : list string) (title body : string)
    (deep_link_url image_url : option string) (custom_data : option dict)
    (silent_push : bool) (time_to_live : option Z) (priority : option string)
    : outcome value :=
  (let action := push_action deep_link_url in
   let processed_custom_data :=
     _prepare_custom_data custom_data deep_link_url image_url in
   apns_message <-
     _build_apns_message title body action deep_link_url image_url silent_push
       processed_custom_data ;;
   gcm_message <-
     _build_gcm_message title body action deep_link_url image_url silent_push
       processed_custom_data time_to_live priority ;;
   let default_message :=
     _build_default_message title body action deep_link_url in
   Ok (PyDict
         [("Endpoints", PyDict (endpoints endpoint_ids));
          ("MessageConfiguration",
            PyDict [("APNSMessage", PyDict apns_message);
                    ("GCMMessage", PyDict gcm_message);
                    ("DefaultPushNotificationMessage",
                      PyDict default_message)])]))%outcome.

(** Extra keyword arguments ([**kwargs]) are accepted and ignored; they are
    not modelled. *)
Definition send_pinpoint_push_notification (application_id : string)
    (endpoint_ids : list string) (title body : string)
    (deep_link_url image_url : option string) (custom_data : option dict)
    (silent_push : bool) (time_to_live : option Z) (priority : option string)
    : io call value :=
  (message_request <-
     lift (message_request endpoint_ids title body deep_link_url image_url
             custom_data silent_push time_to_live priority) ;;
   perform (send_messages application_id message_request))%io.

(** [{"error": e.response["Error"]["Message"]}]. *)
Definition error_result (response : value) : outcome value :=
  (error <- py_getitem response "Error" ;;
   message <- py_getitem error "Message" ;;
   Ok (PyDict [("error", message)]))%outcome.

Definition get_pinpoint_endpoint (application_id endpoint_id : string)
    : io call value :=
  try_except (perform (get_endpoint application_id endpoint_id))
    (fun e =>
       match e with
       | NotFoundException response => Some (lift (error_result response))
       | _ => None
       end).

Definition get_pinpoint_user_endpoints (application_id user_id : string)
    : io call value :=
  try_except (perform (get_user_endpoints application_id user_id))
    (fun e =>
       match e with
       | NotFoundException response => Some (lift (error_result response))
       | _ => None
       end).

End Pinpoint.

(** Reading the envelope the way the provider does: the message of one
    channel, and one field of it. *)
Definition channel_message (envelope : value) (channel : string)
    : outcome value :=
  (configuration <- py_getitem envelope "MessageConfiguration" ;;
   py_getitem configuration channel)%outcome.

Definition channel_field (envelope : value) (channel field : string)
    : outcome value :=
  (message <- channel_message envelope channel ;;
   py_getitem message field)%outcome.

(** ** The SMS-gateway adapter *)

Module Twilio.

(** The one operation of the gateway's client the adapter uses. *)
Inductive call : Type :=
| create_message (from_ to body : string).

(** Modelled from the spec: the adapter class [TwilioNotifier]
    ([notihub/notifiers/twilio/notifier.py]) is not among the sources, only
    its tests are.  The adapter holds the two mandatory credentials and the
    optional origin phone number. *)
Record TwilioNotifier : Type := {
  account_sid : string;
  auth_token : string;
  twilio_phone_number : option string
}.

(** Modelled from the spec: [send_sms_notification] of the absent adapter.
    It "requires a configured origin phone number; fails with a validation
    error before attempting the call if none is configured.  On success
    returns the transport-assigned message identifier", read here from the
    response's [id] entry.  The validation error is Python's [ValueError];
    its message is the one the repository's test
    [test_send_sms_notification_no_twilio_phone_number] expects. *)
Definition send_sms_notification (self : TwilioNotifier)
    (phone_number message : string) : io call value :=
  match twilio_phone_number self with
  | None =>
      raise (ValidationError
               "Twilio phone number must be provided for sending SMS.")
  | Some origin =>
      (response <- perform (create_message origin phone_number message) ;;
       lift (py_getitem response "id"))%io
  end.

(** Modelled from the spec: [send_email_notification] of the absent adapter,
    which "always fail[s] with NotSupported"; [extra] stands for the
    catch-all keyword arguments. *)
Definition send_email_notification (self : TwilioNotifier)
    (subject : option string) (email_data : dict)
    (recipients : list string) (sender template : string)
    (cc_emails bcc_emails : option (list string)) (extra : dict)
    : io call value :=
  raise NotSupported.

(** Modelled from the spec: [send_push_notification] of the absent adapter,
    which "always fail[s] with NotSupported". *)
Definition send_push_notification (self : TwilioNotifier) (message : string)
    (extra : dict) : io call value :=
  raise NotSupported.

End Twilio.

(** ** client.py *)

Module Client.

(** A keyword parameter with a default: the caller gives it or leaves it
    out. *)
Inductive argument (A : Type) : Type :=
| omitted
| given (a : A).
Arguments omitted {A}.
Arguments given {A} a.

Definition or_default {A} (arg : argument A) (default : A) : A :=
  match arg with
  | given a => a
  | omitted => default
  end.

Section Factory.
(** The class [AWSNotifier] ([notihub/notifiers/aws/notifier.py]) is not
    among the sources: its instances and its constructor, which may
    raise, are parameters of the factory. *)
Variable notifier : Type.
Variable AWSNotifier :
  option string -> option string -> option string -> outcome notifier.

Definition get_aws_notifier
    (aws_access_key_id aws_secret_access_key region_name
       : argument (option string)) : outcome notifier :=
  let aws_access_key_id := or_default aws_access_key_id None in
  let aws_secret_access_key := or_default aws_secret_access_key None in
  let region_name := or_default region_name None in
  AWSNotifier aws_access_key_id aws_secret_access_key region_name.
End Factory.

(** Modelled from the spec: the constructor of the absent class
    [AWSNotifier], for which "credentials are optional" and "absent
    credentials fall back to ambient default credentials": it keeps the three
    values and does not fail. *)
Record AWSNotifier : Type := {
  aws_access_key_id : option string;
  aws_secret_access_key : option string;
  region_name : option string
}.

Definition new_AWSNotifier (aws_access_key_id aws_secret_access_key
    region_name : option string) : outcome AWSNotifier :=
  Ok {| aws_access_key_id := aws_access_key_id;
        aws_secret_access_key := aws_secret_access_key;
        region_name := region_name |}.

(** The constructor in a process where the SDK finds no default region:
    the clients of the adapter cannot be created unless [region_name] is
    given. *)
Definition new_AWSNotifier_without_default_region (aws_access_key_id
    aws_secret_access_key region_name : option string) : outcome AWSNotifier :=
  match region_name with
  | Some _ =>
      Ok {| aws_access_key_id := aws_access_key_id;
            aws_secret_access_key := aws_secret_access_key;
            region_name := region_name |}
  | None => Raise NoRegionError
  end.

End Client.

(** ** Sample transports *)

(** A transport on which every endpoint lookup finds nothing, sending is
    throttled for the application [throttled] and is refused with the same
    not-found error for every other application. *)
Definition not_found_response : value :=
  PyDict [("Error", PyDict [("Code", PyStr "NotFoundException");
                            ("Message", PyStr "Resource not found")])].

Definition failing_transport : transport Pinpoint.call :=
  fun _ c =>
    match c with
    | Pinpoint.send_messages application_id _ =>
        if String.eqb application_id "throttled"
        then Raise (ClientError "TooManyRequestsException" PyNone)
        else Raise (NotFoundException not_found_response)
    | _ => Raise (NotFoundException not_found_response)
    end.

(** * Properties *)

Local Open Scope list_scope.

(** ** Values and dictionaries *)

(** Induction over [value] that reaches inside lists and dictionaries. *)
Lemma value_nested_ind (P : value -> Prop)
  (HNone : P PyNone)
  (HBool : forall b, P (PyBool b))
  (HInt : forall n, P (PyInt n))
  (HStr : forall s, P (PyStr s))
  (HList : forall l, Forall P l -> P (PyList l))
  (HDict : forall d, Forall (fun kv => P (snd kv)) d -> P (PyDict d))
  (HOpaque : forall ty, P (PyOpaque ty)) :
  forall v, P v.
Proof.
  fix IH 1. intros [ | b | n | s | l | d | ty ].
  - exact HNone.
  - exact (HBool b).
  - exact (HInt n).
  - exact (HStr s).
  - apply HList. induction l as [ | x l IHl ].
    + constructor.
    + constructor; [ exact (IH x) | exact IHl ].
  - apply HDict. induction d as [ | [k x] d IHd ].
    + constructor.
    + constructor; [ exact (IH x) | exact IHd ].
  - exact (HOpaque ty).
Qed.


Lemma dict_get_set_same k v d : dict_get k (dict_set k v d) = Some v.
Proof.
  induction d as [ | [k' v'] d IH ]; simpl.
  - now rewrite String.eqb_refl.
  - destruct (String.eqb k k') eqn:E; simpl; rewrite E; auto.
Qed.

Lemma dict_get_set_other k k' v d :
  k <> k' -> dict_get k (dict_set k' v d) = dict_get k d.
Proof.
  intros Hne. induction d as [ | [k0 v0] d IH ]; simpl.
  - destruct (String.eqb_spec k k'); congruence.
  - destruct (String.eqb_spec k' k0) as [-> | Hk0]; simpl.
    + destruct (String.eqb_spec k k0); congruence.
    + destruct (String.eqb_spec k k0); auto.
Qed.

(** Writing the value a key already has changes nothing. *)
Lemma dict_set_stored k v d : dict_get k d = Some v -> dict_set k v d = d.
Proof.
  induction d as [ | [k' v'] d IH ]; simpl; [ discriminate | ].
  destruct (String.eqb_spec k k') as [-> | Hne]; intros H.
  - congruence.
  - now rewrite IH.
Qed.

Lemma dict_keys_set k v d :
  dict_keys (dict_set k v d) =
    if dict_has k d then dict_keys d else (dict_keys d ++ [k])%list.
Proof.
  unfold dict_has. induction d as [ | [k' v'] d IH ]; simpl; auto.
  destruct (String.eqb_spec k k') as [-> | Hne]; simpl; auto.
  rewrite IH. now destruct (dict_get k d).
Qed.

Lemma dict_has_set k k' v d :
  dict_has k (dict_set k' v d) = (String.eqb k k' || dict_has k d)%bool.
Proof.
  unfold dict_has. destruct (String.eqb_spec k k') as [-> | Hne].
  - now rewrite dict_get_set_same.
  - now rewrite dict_get_set_other.
Qed.

Lemma dict_wf_set k v d : dict_wf d = true -> dict_wf (dict_set k v d) = true.
Proof.
  induction d as [ | [k' v'] d IH ]; [ reflexivity | ].
  cbn [dict_wf dict_set]. intros [Hk' Hd]%andb_prop.
  destruct (String.eqb_spec k k') as [-> | Hne]; cbn [dict_wf].
  - now rewrite Hk', Hd.
  - rewrite dict_has_set, IH by assumption.
    destruct (String.eqb_spec k' k); [ congruence | ].
    cbn [orb]. now rewrite Hk'.
Qed.

Lemma dict_update_wf d other :
  dict_wf d = true -> dict_wf (dict_update d other) = true.
Proof.
  unfold dict_update. revert d.
  induction other as [ | [k v] other IH ]; intros d Hd; simpl; auto.
  apply IH. now apply dict_wf_set.
Qed.

Lemma dict_has_app k d1 d2 :
  dict_has k (d1 ++ d2) = (dict_has k d1 || dict_has k d2)%bool.
Proof.
  unfold dict_has. induction d1 as [ | [k' v'] d1 IH ]; simpl; auto.
  destruct (String.eqb k k'); auto.
Qed.

Lemma dict_set_fresh k v d : dict_has k d = false -> dict_set k v d = (d ++ [(k, v)])%list.
Proof.
  unfold dict_has. induction d as [ | [k' v'] d IH ]; simpl; auto.
  destruct (String.eqb k k'); [ discriminate | ].
  intros H. now rewrite IH.
Qed.

Lemma dict_remove_absent k d : dict_has k d = false -> dict_remove k d = d.
Proof.
  unfold dict_has, dict_remove.
  induction d as [ | [k' v'] d IH ]; simpl; auto.
  destruct (String.eqb k k'); [ discriminate | ].
  intros H. simpl. now rewrite IH.
Qed.

(** Unpacking a dictionary over [(k, a) :: front], when [front] shares no
    key with it: the entry [k] takes the unpacked value if there is one and
    keeps its place, the other entries follow in their order. *)
Lemma dict_update_head k a front other :
  dict_wf other = true ->
  dict_has k front = false ->
  (forall k', dict_has k' front = true -> dict_has k' other = false) ->
  dict_update ((k, a) :: front) other =
    (k, match dict_get k other with Some v => v | None => a end)
      :: (front ++ dict_remove k other)%list.
Proof.
  unfold dict_update. revert a front.
  induction other as [ | [k1 v1] other IH ]; intros a front Hwf Hk Hfront.
  - simpl. now rewrite app_nil_r.
  - cbn [dict_wf] in Hwf. apply andb_prop in Hwf as [Hk1 Hwf].
    apply negb_true_iff in Hk1.
    cbn [fold_left fst snd dict_set dict_get].
    destruct (String.eqb_spec k1 k) as [-> | Hne].
    + rewrite String.eqb_refl.
      rewrite IH; auto.
      * unfold dict_has in Hk1.
        destruct (dict_get k other); [ discriminate | ].
        unfold dict_remove. cbn [filter fst]. rewrite String.eqb_refl.
        reflexivity.
      * intros k' Hk'. specialize (Hfront k' Hk').
        unfold dict_has in Hfront |- *. simpl in Hfront.
        destruct (String.eqb k' k); [ discriminate | assumption ].
    + assert (Hfresh : dict_has k1 front = false).
      { destruct (dict_has k1 front) eqn:E; auto.
        specialize (Hfront k1 E). unfold dict_has in Hfront. simpl in Hfront.
        rewrite String.eqb_refl in Hfront. discriminate. }
      rewrite (dict_set_fresh _ _ _ Hfresh).
      rewrite IH; auto.
      * destruct (String.eqb_spec k k1); [ congruence | ].
        unfold dict_remove. cbn [filter fst negb].
        destruct (String.eqb_spec k k1); [ congruence | ].
        cbn [negb]. now rewrite <- app_assoc.
      * rewrite dict_has_app, Hk. unfold dict_has. simpl.
        destruct (String.eqb_spec k k1); [ congruence | reflexivity ].
      * intros k'. rewrite dict_has_app.
        intros [H | H]%orb_prop.
        -- specialize (Hfront k' H). unfold dict_has in Hfront |- *.
           simpl in Hfront. destruct (String.eqb k' k1); [ discriminate | auto ].
        -- unfold dict_has in H. simpl in H.
           destruct (String.eqb_spec k' k1) as [Heq | ]; [ | discriminate ].
           now rewrite Heq.
Qed.

Lemma dict_update_single k a other :
  dict_wf other = true ->
  dict_update [(k, a)] other =
    (k, match dict_get k other with Some v => v | None => a end)
      :: dict_remove k other.
Proof.
  intros Hwf. rewrite dict_update_head; auto. discriminate.
Qed.

(** ** Serialization *)

Lemma serializable_set k v d :
  serializable v = true -> serializable (PyDict d) = true ->
  serializable (PyDict (dict_set k v d)) = true.
Proof.
  intros Hv. simpl. induction d as [ | [k' v'] d IH ]; simpl.
  - now rewrite Hv.
  - intros [Hv' Hd]%andb_prop.
    destruct (String.eqb k k'); simpl.
    + now rewrite Hv, Hd.
    + now rewrite Hv', IH.
Qed.

Lemma serializable_update d other :
  serializable (PyDict d) = true -> serializable (PyDict other) = true ->
  serializable (PyDict (dict_update d other)) = true.
Proof.
  unfold dict_update. revert d.
  induction other as [ | [k v] other IH ]; intros d Hd Ho; auto.
  simpl in Ho. apply andb_prop in Ho as [Hv Ho].
  cbn [fold_left fst snd]. apply IH; auto.
  now apply serializable_set.
Qed.

(** [json.dumps] returns a string on every serializable value. *)
Lemma json_dumps_total v :
  serializable v = true -> exists s, json_dumps v = Ok s.
Proof.
  induction v as [ | b | n | s | l IH | d IH | ty ] using value_nested_ind;
    intros Hser; try (simpl; eauto; fail).
  - destruct b; simpl; eauto.
  - simpl in Hser.
    assert (Hchunks : exists ss,
      (fix chunks (l : list value) : outcome (list string) :=
         match l with
         | [] => Ok []
         | x :: rest =>
             (s <- json_dumps x ;; ss <- chunks rest ;; Ok (s :: ss))%outcome
         end) l = Ok ss).
    { induction IH as [ | x l Hx _ IHl ]; [ eauto | ].
      simpl in Hser. apply andb_prop in Hser as [Hsx Hsl].
      destruct (Hx Hsx) as [s Hs]. destruct (IHl Hsl) as [ss Hss].
      rewrite Hs, Hss. simpl. eauto. }
    destruct Hchunks as [ss Hss]. cbn [json_dumps]. rewrite Hss. simpl. eauto.
  - simpl in Hser.
    assert (Hchunks : exists ss,
      (fix chunks (d : dict) : outcome (list string) :=
         match d with
         | [] => Ok []
         | (k, x) :: rest =>
             (s <- json_dumps x ;; ss <- chunks rest ;;
              Ok ((encode_basestring_ascii k ++ ": " ++ s)%string :: ss))%outcome
         end) d = Ok ss).
    { induction IH as [ | [k x] d Hx _ IHd ]; [ eauto | ].
      simpl in Hser, Hx. apply andb_prop in Hser as [Hsx Hsd].
      destruct (Hx Hsx) as [s Hs]. destruct (IHd Hsd) as [ss Hss].
      rewrite Hs, Hss. simpl. eauto. }
    destruct Hchunks as [ss Hss]. cbn [json_dumps]. rewrite Hss. simpl. eauto.
  - discriminate.
Qed.

(** ** Custom-data enrichment *)

Import Pinpoint.

Lemma prepare_custom_data_unfold custom_data deep_link_url image_url :
  _prepare_custom_data custom_data deep_link_url image_url =
    dict_set "image_url" (of_opt_str image_url)
      (dict_set "deeplink" (of_opt_str deep_link_url) (or_empty custom_data)).
Proof. reflexivity. Qed.

Lemma prepare_custom_data_deeplink custom_data deep_link_url image_url :
  dict_get "deeplink" (_prepare_custom_data custom_data deep_link_url image_url)
    = Some (of_opt_str deep_link_url).
Proof.
  rewrite prepare_custom_data_unfold.
  rewrite dict_get_set_other by discriminate. apply dict_get_set_same.
Qed.

Lemma prepare_custom_data_image_url custom_data deep_link_url image_url :
  dict_get "image_url" (_prepare_custom_data custom_data deep_link_url image_url)
    = Some (of_opt_str image_url).
Proof. rewrite prepare_custom_data_unfold. apply dict_get_set_same. Qed.

Lemma prepare_custom_data_other custom_data deep_link_url image_url k :
  k <> "deeplink" -> k <> "image_url" ->
  dict_get k (_prepare_custom_data custom_data deep_link_url image_url)
    = dict_get k (or_empty custom_data).
Proof.
  intros Hd Hi. rewrite prepare_custom_data_unfold.
  now rewrite !dict_get_set_other.
Qed.

Lemma prepare_custom_data_wf custom_data deep_link_url image_url :
  dict_wf (or_empty custom_data) = true ->
  dict_wf (_prepare_custom_data custom_data deep_link_url image_url) = true.
Proof. intros H. unfold _prepare_custom_data. now apply dict_update_wf. Qed.

Lemma prepare_custom_data_serializable custom_data deep_link_url image_url :
  serializable (PyDict (or_empty custom_data)) = true ->
  serializable
    (PyDict (_prepare_custom_data custom_data deep_link_url image_url)) = true.
Proof.
  intros H. unfold _prepare_custom_data. apply serializable_update; auto.
  now destruct deep_link_url, image_url.
Qed.

(** C3.  For every caller-supplied [custom_data] (also [None]) and every pair
    of optional URLs, the enriched mapping has the keys ["deeplink"] and
    ["image_url"], holding the given URL or null ([None]) when the URL is
    absent; every other key keeps the caller's value; and enriching the
    enriched mapping again gives an equal mapping when the URLs are the same,
    and the later URLs when they differ (last write wins). *)
Theorem prepare_custom_data_enriches_idempotently
    (custom_data : option dict) (deep_link_url image_url : option string) :
  let enriched := _prepare_custom_data custom_data deep_link_url image_url in
  (dict_get "deeplink" enriched = Some (of_opt_str deep_link_url)
   /\ dict_get "image_url" enriched = Some (of_opt_str image_url))
  /\ (dict_get "deeplink" (_prepare_custom_data custom_data None image_url)
        = Some PyNone
      /\ dict_get "image_url"
           (_prepare_custom_data custom_data deep_link_url None) = Some PyNone)
  /\ (forall k, k <> "deeplink" -> k <> "image_url" ->
        dict_get k enriched = dict_get k (or_empty custom_data))
  /\ _prepare_custom_data (Some enriched) deep_link_url image_url = enriched
  /\ (forall deep_link_url' image_url',
        let again :=
          _prepare_custom_data (Some enriched) deep_link_url' image_url' in
        dict_get "deeplink" again = Some (of_opt_str deep_link_url')
        /\ dict_get "image_url" again = Some (of_opt_str image_url')).
Proof.
  intros enriched. subst enriched. repeat split.
  - apply prepare_custom_data_deeplink.
  - apply prepare_custom_data_image_url.
  - apply (prepare_custom_data_deeplink custom_data None).
  - apply (prepare_custom_data_image_url custom_data deep_link_url None).
  - intros k Hd Hi. now apply prepare_custom_data_other.
  - rewrite (prepare_custom_data_unfold (Some _)). cbn [or_empty].
    rewrite (dict_set_stored "deeplink").
    + apply dict_set_stored, prepare_custom_data_image_url.
    + apply prepare_custom_data_deeplink.
  - apply prepare_custom_data_deeplink.
  - apply prepare_custom_data_image_url.
Qed.

Lemma prepare_custom_data_enriches_idempotently_witness :
  _prepare_custom_data
    (Some [("deeplink", PyStr "old"); ("campaign", PyInt 7)])
    (Some "app://home") None
  = [("deeplink", PyStr "app://home"); ("campaign", PyInt 7);
     ("image_url", PyNone)]
  /\ dict_get "campaign"
       (_prepare_custom_data
          (Some [("deeplink", PyStr "old"); ("campaign", PyInt 7)])
          (Some "app://home") None) = Some (PyInt 7)
  /\ _prepare_custom_data
       (Some (_prepare_custom_data
                (Some [("deeplink", PyStr "old"); ("campaign", PyInt 7)])
                (Some "app://home") None))
       (Some "app://home") None
     = _prepare_custom_data
         (Some [("deeplink", PyStr "old"); ("campaign", PyInt 7)])
         (Some "app://home") None.
Proof.
  pose proof (prepare_custom_data_enriches_idempotently
                (Some [("deeplink", PyStr "old"); ("campaign", PyInt 7)])
                (Some "app://home") None) as [_ [_ [Hother [Hidem _]]]].
  split; [ reflexivity | split ].
  - apply (Hother "campaign"); discriminate.
  - exact Hidem.
Defined.

(** ** Silent pushes and images *)

(** With [silent_push = True] the built [aps] payload holds
    [content-available = 1] and no [alert], and the built GCM payload holds
    [content_available = 1] and no [notification]; with [silent_push = False]
    the [aps] payload holds [alert = {title, body}] and the GCM payload holds
    a [notification] block with the title and the body (followed by the image
    when an image URL is given). *)
Theorem silent_push_omits_visible_blocks
    (title body : string) (image_url : option string) (custom_data : dict)
    (time_to_live : option Z) (priority : option string) :
  let aps silent := aps_payload title body image_url silent in
  let gcm silent :=
    gcm_payload title body image_url silent custom_data time_to_live
      priority in
  (dict_get "content-available" (aps true) = Some (PyInt 1)
   /\ dict_get "alert" (aps true) = None
   /\ dict_get "content_available" (gcm true) = Some (PyInt 1)
   /\ dict_get "notification" (gcm true) = None)
  /\ (dict_get "alert" (aps false)
        = Some (PyDict [("title", PyStr title); ("body", PyStr body)])
      /\ dict_get "content-available" (aps false) = None
      /\ dict_get "notification" (gcm false)
           = Some (PyDict ([("title", PyStr title); ("body", PyStr body)]
                           ++ if truthy image_url
                              then [("image", of_opt_str image_url)]
                              else []))
      /\ dict_get "content_available" (gcm false) = None).
Proof.
  intros aps gcm. subst aps gcm. unfold aps_payload, gcm_payload.
  repeat split;
    destruct (truthy image_url), (truthy priority), time_to_live;
    reflexivity.
Qed.

(** With an image URL set and [silent_push = False] the built [aps]
    payload holds [mutable-content = 1] and the GCM [notification] block
    holds [image], equal to that URL. *)
Theorem image_url_marks_both_payloads
    (title body url : string) (custom_data : dict)
    (time_to_live : option Z) (priority : option string) :
  url <> "" ->
  dict_get "mutable-content" (aps_payload title body (Some url) false)
    = Some (PyInt 1)
  /\ exists notification,
       dict_get "notification"
         (gcm_payload title body (Some url) false custom_data time_to_live
            priority) = Some (PyDict notification)
       /\ dict_get "image" notification = Some (PyStr url).
Proof.
  intros Hurl.
  assert (Ht : truthy (Some url) = true).
  { simpl. now destruct (String.eqb_spec url ""). }
  unfold aps_payload, gcm_payload. rewrite Ht. split; [ reflexivity | ].
  exists [("title", PyStr title); ("body", PyStr body); ("image", PyStr url)].
  split; [ | reflexivity ].
  destruct (truthy priority), time_to_live; reflexivity.
Qed.

(** ** The three channel messages and the envelope *)

Lemma aps_payload_serializable title body image_url silent_push :
  serializable (PyDict (aps_payload title body image_url silent_push)) = true.
Proof.
  unfold aps_payload. now destruct silent_push, (truthy image_url).
Qed.

Lemma gcm_payload_serializable title body image_url silent_push custom_data
    time_to_live priority :
  serializable (PyDict custom_data) = true ->
  serializable
    (PyDict (gcm_payload title body image_url silent_push custom_data
               time_to_live priority)) = true.
Proof.
  intros Hcd. unfold gcm_payload.
  assert (Hdata : serializable
            (PyDict (dict_set "body" (PyStr body)
                       (dict_set "title" (PyStr title)
                          (dict_update [] custom_data)))) = true).
  { repeat apply serializable_set; auto. now apply serializable_update. }
  set (data := dict_set "body" _ _) in *.
  assert (Hbase : serializable (PyDict [("data", PyDict data)]) = true).
  { simpl. simpl in Hdata. now rewrite Hdata. }
  destruct time_to_live; destruct (truthy priority) eqn:Hp;
    repeat (apply serializable_set; [ | ]);
    try reflexivity;
    try (destruct silent_push; repeat (apply serializable_set; [ | ]);
         try reflexivity; try exact Hbase;
         destruct (truthy image_url) eqn:Hi, image_url; simpl; reflexivity);
    destruct priority; reflexivity.
Qed.

(** The APNS message once [json.dumps] has accepted the payload. *)
Lemma build_apns_message_ok title body action deep_link_url image_url
    silent_push custom_data :
  serializable (PyDict custom_data) = true ->
  exists raw,
    json_dumps
      (PyDict (payload_root (aps_payload title body image_url silent_push)
                 custom_data)) = Ok raw
    /\ _build_apns_message title body action deep_link_url image_url
         silent_push custom_data
       = Ok ([("Action", PyStr action); ("RawContent", PyStr raw)]
             ++ if truthy deep_link_url
                then [("Url", of_opt_str deep_link_url)] else []).
Proof.
  intros Hcd.
  destruct (json_dumps_total
              (PyDict (payload_root
                         (aps_payload title body image_url silent_push)
                         custom_data))) as [raw Hraw].
  { apply serializable_update; auto.
    pose proof (aps_payload_serializable title body image_url silent_push) as H.
    simpl in H |- *. now rewrite H. }
  exists raw. split; [ exact Hraw | ].
  unfold _build_apns_message. rewrite Hraw. cbn [obind].
  now destruct (truthy deep_link_url).
Qed.

Lemma build_gcm_message_ok title body action deep_link_url image_url
    silent_push custom_data time_to_live priority :
  serializable (PyDict custom_data) = true ->
  exists raw,
    json_dumps
      (PyDict (gcm_payload title body image_url silent_push custom_data
                 time_to_live priority)) = Ok raw
    /\ _build_gcm_message title body action deep_link_url image_url
         silent_push custom_data time_to_live priority
       = Ok ([("Action", PyStr action); ("RawContent", PyStr raw)]
             ++ if truthy deep_link_url
                then [("Url", of_opt_str deep_link_url)] else []).
Proof.
  intros Hcd.
  destruct (json_dumps_total
              (PyDict (gcm_payload title body image_url silent_push
                         custom_data time_to_live priority))) as [raw Hraw].
  { now apply gcm_payload_serializable. }
  exists raw. split; [ exact Hraw | ].
  unfold _build_gcm_message. rewrite Hraw. cbn [obind].
  now destruct (truthy deep_link_url).
Qed.

Lemma build_default_message_shape title body action deep_link_url :
  _build_default_message title body action deep_link_url
  = [("Action", PyStr action); ("Title", PyStr title); ("Body", PyStr body)]
    ++ if truthy deep_link_url then [("Url", of_opt_str deep_link_url)] else [].
Proof. unfold _build_default_message. now destruct (truthy deep_link_url). Qed.

(** The envelope of a request whose custom data [json.dumps] accepts. *)
Lemma message_request_ok endpoint_ids title body deep_link_url image_url
    custom_data silent_push time_to_live priority :
  serializable (PyDict (or_empty custom_data)) = true ->
  let enriched := _prepare_custom_data custom_data deep_link_url image_url in
  let action := PyStr (push_action deep_link_url) in
  let url :=
    if truthy deep_link_url then [("Url", of_opt_str deep_link_url)] else [] in
  exists raw_apns raw_gcm,
    json_dumps
      (PyDict (payload_root (aps_payload title body image_url silent_push)
                 enriched)) = Ok raw_apns
    /\ json_dumps
         (PyDict (gcm_payload title body image_url silent_push enriched
                    time_to_live priority)) = Ok raw_gcm
    /\ message_request endpoint_ids title body deep_link_url image_url
         custom_data silent_push time_to_live priority
       = Ok (PyDict
               [("Endpoints", PyDict (endpoints endpoint_ids));
                ("MessageConfiguration",
                  PyDict
                    [("APNSMessage",
                       PyDict ([("Action", action);
                                ("RawContent", PyStr raw_apns)] ++ url));
                     ("GCMMessage",
                       PyDict ([("Action", action);
                                ("RawContent", PyStr raw_gcm)] ++ url));
                     ("DefaultPushNotificationMessage",
                       PyDict ([("Action", action); ("Title", PyStr title);
                                ("Body", PyStr body)] ++ url))])]).
Proof.
  intros Hcd enriched action url.
  pose proof (prepare_custom_data_serializable custom_data deep_link_url
                image_url Hcd) as Henr.
  destruct (build_apns_message_ok title body (push_action deep_link_url)
              deep_link_url image_url silent_push enriched Henr)
    as [raw_apns [Hraw_apns Hapns]].
  destruct (build_gcm_message_ok title body (push_action deep_link_url)
              deep_link_url image_url silent_push enriched time_to_live
              priority Henr)
    as [raw_gcm [Hraw_gcm Hgcm]].
  exists raw_apns, raw_gcm. repeat split; auto.
  unfold message_request. fold enriched. rewrite Hapns, Hgcm. cbn [obind].
  now rewrite build_default_message_shape.
Qed.

(** [json.dumps] returns a string on the serializable values only: custom
    data holding anything else makes the APNS builder raise, and no message is
    built. *)
Lemma json_dumps_ok_serializable v :
  forall s, json_dumps v = Ok s -> serializable v = true.
Proof.
  induction v as [ | b | n | s0 | l IH | d IH | ty ] using value_nested_ind;
    intros s Hs; try reflexivity.
  - cbn [json_dumps] in Hs. cbn [serializable].
    match type of Hs with
    | obind ?c _ = _ => destruct c as [ss | ] eqn:Hss; [ clear Hs | discriminate ]
    end.
    revert ss Hss. induction IH as [ | x l Hx _ IHl ]; intros ss Hss.
    + reflexivity.
    + destruct (json_dumps x) as [sx | ] eqn:Hsx; [ | discriminate ].
      cbn [obind] in Hss.
      match type of Hss with
      | obind ?c _ = _ => destruct c as [ss' | ] eqn:Hss'; [ | discriminate ]
      end.
      simpl. rewrite (Hx sx) by (exact Hsx || reflexivity). simpl. eapply IHl; eauto.
  - cbn [json_dumps] in Hs. cbn [serializable].
    match type of Hs with
    | obind ?c _ = _ => destruct c as [ss | ] eqn:Hss; [ clear Hs | discriminate ]
    end.
    revert ss Hss. induction IH as [ | [k x] d Hx _ IHd ]; intros ss Hss.
    + reflexivity.
    + destruct (json_dumps x) as [sx | ] eqn:Hsx; [ | discriminate ].
      cbn [obind] in Hss.
      match type of Hss with
      | obind ?c _ = _ => destruct c as [ss' | ] eqn:Hss'; [ | discriminate ]
      end.
      simpl in Hx |- *. rewrite (Hx sx) by (exact Hsx || reflexivity). simpl. eapply IHd; eauto.
  - discriminate.
Qed.

Lemma truthy_some url : url <> "" -> truthy (Some url) = true.
Proof. intros H. simpl. now destruct (String.eqb_spec url ""). Qed.

(** C1.  For every push request (whose custom data [json.dumps] accepts, so
    that the three messages are built): with a deep-link URL present the
    action is ["DEEP_LINK"] and [Url] holds that URL in the APNS, the GCM and
    the default message alike; with the deep-link URL absent the action is
    ["OPEN_APP"] and none of the three messages has a [Url] key. *)
Theorem deep_link_sets_action_and_url
    (endpoint_ids : list string) (title body : string)
    (deep_link_url image_url : option string) (custom_data : option dict)
    (silent_push : bool) (time_to_live : option Z) (priority : option string) :
  serializable (PyDict (or_empty custom_data)) = true ->
  exists envelope,
    message_request endpoint_ids title body deep_link_url image_url
      custom_data silent_push time_to_live priority = Ok envelope
    /\ (forall url, deep_link_url = Some url -> url <> "" ->
          push_action deep_link_url = "DEEP_LINK"
          /\ forall channel,
               In channel ["APNSMessage"; "GCMMessage";
                           "DefaultPushNotificationMessage"] ->
               channel_field envelope channel "Action"
                 = Ok (PyStr "DEEP_LINK")
               /\ channel_field envelope channel "Url" = Ok (PyStr url))
    /\ (deep_link_url = None ->
          push_action deep_link_url = "OPEN_APP"
          /\ forall channel,
               In channel ["APNSMessage"; "GCMMessage";
                           "DefaultPushNotificationMessage"] ->
               channel_field envelope channel "Action"
                 = Ok (PyStr "OPEN_APP")
               /\ channel_field envelope channel "Url"
                  = Raise (KeyError "Url")).
Proof.
  intros Hcd.
  destruct (message_request_ok endpoint_ids title body deep_link_url image_url
              custom_data silent_push time_to_live priority Hcd)
    as [raw_apns [raw_gcm [_ [_ Henv]]]].
  eexists. split; [ exact Henv | ]. split.
  - intros url -> Hurl. unfold push_action. rewrite (truthy_some url Hurl).
    split; [ reflexivity | ].
    intros channel [<- | [<- | [<- | []]]]; split; reflexivity.
  - intros ->. split; [ reflexivity | ].
    intros channel [<- | [<- | [<- | []]]]; split; reflexivity.
Qed.

Lemma deep_link_sets_action_and_url_witness :
  exists envelope,
    message_request ["e1"] "Hi" "there" (Some "app://home") None
      (Some [("campaign", PyInt 7)]) false None None = Ok envelope
    /\ channel_field envelope "APNSMessage" "Url" = Ok (PyStr "app://home")
    /\ channel_field envelope "GCMMessage" "Url" = Ok (PyStr "app://home")
    /\ channel_field envelope "DefaultPushNotificationMessage" "Url"
       = Ok (PyStr "app://home").
Proof.
  destruct (deep_link_sets_action_and_url ["e1"] "Hi" "there"
              (Some "app://home") None (Some [("campaign", PyInt 7)]) false
              None None eq_refl) as [envelope [Henv [Hpresent _]]].
  destruct (Hpresent "app://home" eq_refl) as [_ Hchannels];
    [ discriminate | ].
  exists envelope. split; [ exact Henv | ].
  repeat split; apply Hchannels; simpl; auto.
Defined.

(** The empty string is a [str] and no URL: the conditions [if deep_link_url:]
    treat it like [None], while the enrichment stores it as it is. *)
Lemma empty_deep_link_is_no_deep_link :
  push_action (Some "") = "OPEN_APP"
  /\ _build_default_message "Hi" "there" (push_action (Some "")) (Some "")
     = [("Action", PyStr "OPEN_APP"); ("Title", PyStr "Hi");
        ("Body", PyStr "there")]
  /\ dict_get "deeplink" (_prepare_custom_data None (Some "") None)
     = Some (PyStr "").
Proof. repeat split. Qed.

(** *** Endpoints *)

Lemma endpoints_fold_keys ids : forall acc k,
  dict_has k
    (fold_left (fun acc id => dict_set id (PyDict []) acc) ids acc) = true
  <-> dict_has k acc = true \/ In k ids.
Proof.
  induction ids as [ | id ids IH ]; intros acc k; simpl.
  - tauto.
  - rewrite IH, dict_has_set. rewrite orb_true_iff.
    destruct (String.eqb_spec k id) as [-> | Hne]; intuition congruence.
Qed.

Lemma endpoints_fold_values ids : forall acc,
  (forall k v, dict_get k acc = Some v -> v = PyDict []) ->
  forall k v,
    dict_get k
      (fold_left (fun acc id => dict_set id (PyDict []) acc) ids acc) = Some v ->
    v = PyDict [].
Proof.
  induction ids as [ | id ids IH ]; intros acc Hacc k v; simpl.
  - apply Hacc.
  - apply IH. intros k' v'.
    destruct (String.eqb_spec k' id) as [-> | Hne].
    + rewrite dict_get_set_same. congruence.
    + rewrite dict_get_set_other by assumption. apply Hacc.
Qed.

Lemma endpoints_fold_wf ids : forall acc,
  dict_wf acc = true ->
  dict_wf (fold_left (fun acc id => dict_set id (PyDict []) acc) ids acc) = true.
Proof.
  induction ids as [ | id ids IH ]; intros acc Hacc; simpl; auto.
  apply IH. now apply dict_wf_set.
Qed.

Lemma dict_set_length k v d :
  length (dict_set k v d) = if dict_has k d then length d else S (length d).
Proof.
  unfold dict_has. induction d as [ | [k' v'] d IH ]; simpl; auto.
  destruct (String.eqb k k'); simpl; auto.
  rewrite IH. now destruct (dict_get k d).
Qed.

Lemma endpoints_fold_length ids : forall acc,
  length (fold_left (fun acc id => dict_set id (PyDict []) acc) ids acc)
    <= length acc + length ids.
Proof.
  induction ids as [ | id ids IH ]; intros acc; simpl; [ lia | ].
  specialize (IH (dict_set id (PyDict []) acc)).
  rewrite dict_set_length in IH. destruct (dict_has id acc); lia.
Qed.

(** Distinct ids that are not yet keys are appended in their order. *)
Lemma endpoints_fold_distinct ids : forall acc,
  NoDup ids ->
  (forall id, In id ids -> dict_has id acc = false) ->
  fold_left (fun acc id => dict_set id (PyDict []) acc) ids acc
  = acc ++ map (fun id => (id, PyDict [])) ids.
Proof.
  induction ids as [ | id ids IH ]; intros acc Hnd Hfresh; simpl.
  - now rewrite app_nil_r.
  - inversion Hnd as [ | ? ? Hnotin Hnd' ]; subst.
    rewrite dict_set_fresh by (apply Hfresh; now left).
    rewrite IH; auto.
    + now rewrite <- app_assoc.
    + intros id' Hin. rewrite dict_has_app, (Hfresh id') by now right.
      unfold dict_has. simpl.
      destruct (String.eqb_spec id' id); [ congruence | reflexivity ].
Qed.

(** C5, as the code has it.  For every list of endpoint ids (also the empty
    one) the envelope's [Endpoints] mapping has one key per distinct id of
    the list, each mapped to an empty attribute map, and no other key; for N
    pairwise distinct ids these are exactly N keys, in the order of the
    list. *)
Theorem endpoints_one_key_per_distinct_id
    (endpoint_ids : list string) (title body : string)
    (deep_link_url image_url : option string) (custom_data : option dict)
    (silent_push : bool) (time_to_live : option Z) (priority : option string) :
  serializable (PyDict (or_empty custom_data)) = true ->
  exists envelope mapping,
    message_request endpoint_ids title body deep_link_url image_url
      custom_data silent_push time_to_live priority = Ok envelope
    /\ py_getitem envelope "Endpoints" = Ok (PyDict mapping)
    /\ dict_wf mapping = true
    /\ (forall id, In id endpoint_ids <-> dict_get id mapping = Some (PyDict []))
    /\ (forall id v, dict_get id mapping = Some v -> v = PyDict [])
    /\ length mapping <= length endpoint_ids
    /\ (NoDup endpoint_ids ->
          length mapping = length endpoint_ids
          /\ dict_keys mapping = endpoint_ids).
Proof.
  intros Hcd.
  destruct (message_request_ok endpoint_ids title body deep_link_url image_url
              custom_data silent_push time_to_live priority Hcd)
    as [raw_apns [raw_gcm [_ [_ Henv]]]].
  eexists. exists (endpoints endpoint_ids).
  split; [ exact Henv | ]. split; [ reflexivity | ].
  assert (Hvalues : forall id v,
            dict_get id (endpoints endpoint_ids) = Some v -> v = PyDict []).
  { apply endpoints_fold_values. discriminate. }
  split; [ now apply endpoints_fold_wf | ].
  split; [ | split; [ exact Hvalues | split ] ].
  - intros id.
    pose proof (endpoints_fold_keys endpoint_ids [] id) as Hkeys.
    fold (endpoints endpoint_ids) in Hkeys. unfold dict_has in Hkeys.
    split.
    + intros Hin. destruct (dict_get id (endpoints endpoint_ids)) eqn:E.
      * now rewrite (Hvalues id v E).
      * assert (false = true) by (apply Hkeys; now right). discriminate.
    + intros Hget. rewrite Hget in Hkeys.
      destruct Hkeys as [[Habs | Hin] _]; auto. discriminate.
  - apply (endpoints_fold_length endpoint_ids []).
  - intros Hnd. unfold endpoints.
    rewrite endpoints_fold_distinct by (auto; reflexivity).
    cbn [app]. unfold dict_keys.
    rewrite length_map, map_map. cbn [fst]. now rewrite map_id.
Qed.

Lemma endpoints_one_key_per_distinct_id_witness :
  exists envelope mapping,
    message_request ["e1"; "e2"] "Hi" "there" None (Some "http://x/y.png")
      None false None None = Ok envelope
    /\ py_getitem envelope "Endpoints" = Ok (PyDict mapping)
    /\ length mapping = 2
    /\ dict_keys mapping = ["e1"; "e2"]
    /\ dict_get "e2" mapping = Some (PyDict []).
Proof.
  destruct (endpoints_one_key_per_distinct_id ["e1"; "e2"] "Hi" "there" None
              (Some "http://x/y.png") None false None None eq_refl)
    as [envelope [mapping [Henv [Hget [_ [Hin [_ [_ Hdistinct]]]]]]]].
  assert (Hnd : NoDup ["e1"; "e2"]).
  { repeat constructor; simpl; intuition discriminate. }
  destruct (Hdistinct Hnd) as [Hlen Hkeys].
  exists envelope, mapping. repeat split; auto.
  apply Hin. simpl. auto.
Defined.

(** C5 as stated fails on a list that repeats an id: two ids, one key. *)
Lemma endpoints_repeated_id_counterexample :
  exists envelope mapping,
    message_request ["e1"; "e1"] "Hi" "there" None None None false None None
      = Ok envelope
    /\ py_getitem envelope "Endpoints" = Ok (PyDict mapping)
    /\ length mapping = 1
    /\ length mapping <> length ["e1"; "e1"].
Proof.
  eexists. eexists. split; [ vm_compute; reflexivity | ].
  split; [ vm_compute; reflexivity | ]. split; [ reflexivity | discriminate ].
Qed.

(** *** Custom data under the key ["aps"] *)

(** Without an ["aps"] key in the custom data the root holds the built
    payload under ["aps"], followed by the custom data. *)
Lemma payload_root_keeps_aps aps custom_data :
  dict_wf custom_data = true ->
  dict_get "aps" custom_data = None ->
  payload_root aps custom_data = ("aps", PyDict aps) :: custom_data.
Proof.
  intros Hwf Hget. unfold payload_root.
  rewrite dict_update_single by assumption.
  rewrite Hget, dict_remove_absent; auto.
  unfold dict_has. now rewrite Hget.
Qed.

(** The [RawContent] of the APNS message then serializes the built [aps]
    payload under ["aps"]. *)
Lemma apns_raw_content_holds_aps_payload title body action deep_link_url
    image_url silent_push custom_data :
  dict_wf custom_data = true ->
  dict_get "aps" custom_data = None ->
  serializable (PyDict custom_data) = true ->
  exists message raw,
    _build_apns_message title body action deep_link_url image_url silent_push
      custom_data = Ok message
    /\ dict_get "RawContent" message = Some (PyStr raw)
    /\ json_dumps
         (PyDict (("aps",
                    PyDict (aps_payload title body image_url silent_push))
                  :: custom_data)) = Ok raw.
Proof.
  intros Hwf Hget Hser.
  destruct (build_apns_message_ok title body action deep_link_url image_url
              silent_push custom_data Hser) as [raw [Hraw Hmessage]].
  rewrite payload_root_keeps_aps in Hraw by assumption.
  eexists. exists raw. split; [ exact Hmessage | ].
  split; [ reflexivity | exact Hraw ].
Qed.

(** C10.  The enriched custom data is unpacked into the payload root after
    the ["aps"] entry, last write wins: when the caller's [custom_data] has a
    key ["aps"], the root holds the caller's value there and the built [aps]
    payload (sound, alert, content-available, mutable-content) is in it
    nowhere, so the [RawContent] of the APNS message is the serialization of
    the caller's ["aps"] value followed by the other custom data. *)
Theorem custom_data_aps_key_replaces_aps_payload
    (endpoint_ids : list string) (title body : string)
    (deep_link_url image_url : option string) (custom_data : dict)
    (silent_push : bool) (time_to_live : option Z) (priority : option string)
    (v : value) :
  dict_wf custom_data = true ->
  dict_get "aps" custom_data = Some v ->
  serializable (PyDict custom_data) = true ->
  let enriched :=
    _prepare_custom_data (Some custom_data) deep_link_url image_url in
  payload_root (aps_payload title body image_url silent_push) enriched
    = ("aps", v) :: dict_remove "aps" enriched
  /\ exists envelope raw,
       message_request endpoint_ids title body deep_link_url image_url
         (Some custom_data) silent_push time_to_live priority = Ok envelope
       /\ channel_field envelope "APNSMessage" "RawContent" = Ok (PyStr raw)
       /\ json_dumps (PyDict (("aps", v) :: dict_remove "aps" enriched))
          = Ok raw.
Proof.
  intros Hwf Hget Hser enriched.
  assert (Hroot :
    payload_root (aps_payload title body image_url silent_push) enriched
      = ("aps", v) :: dict_remove "aps" enriched).
  { unfold payload_root.
    rewrite dict_update_single by now apply prepare_custom_data_wf.
    unfold enriched at 1.
    rewrite prepare_custom_data_other by discriminate.
    cbn [or_empty]. now rewrite Hget. }
  split; [ exact Hroot | ].
  destruct (message_request_ok endpoint_ids title body deep_link_url image_url
              (Some custom_data) silent_push time_to_live priority Hser)
    as [raw_apns [raw_gcm [Hraw [_ Henv]]]].
  fold enriched in Hraw. rewrite Hroot in Hraw.
  eexists. exists raw_apns. split; [ exact Henv | ].
  split; [ reflexivity | exact Hraw ].
Qed.

Lemma custom_data_aps_key_replaces_aps_payload_witness :
  exists envelope raw,
    message_request ["e1"] "Hi" "there" None (Some "http://x/y.png")
      (Some [("aps", PyStr "x")]) false None None = Ok envelope
    /\ channel_field envelope "APNSMessage" "RawContent" = Ok (PyStr raw)
    /\ json_dumps
         (PyDict [("aps", PyStr "x"); ("deeplink", PyNone);
                  ("image_url", PyStr "http://x/y.png")]) = Ok raw.
Proof.
  destruct (custom_data_aps_key_replaces_aps_payload ["e1"] "Hi" "there" None
              (Some "http://x/y.png") [("aps", PyStr "x")] false None None
              (PyStr "x") eq_refl eq_refl eq_refl)
    as [_ [envelope [raw [Henv [Hfield Hraw]]]]].
  exists envelope, raw. repeat split; assumption.
Defined.

(** *** What the silent flag and the image URL send *)

(** C2, as the code has it.  In the GCM payload that the GCM message
    serializes, a silent push has [content_available = 1] and no
    [notification], any other push has a [notification] block with the title
    and the body (followed by the image when an image URL is given).  For a
    request whose custom data has no key ["aps"], the APNS message serializes
    the built [aps] payload under ["aps"], and in it a silent push has
    [content-available = 1] and no [alert], any other push has
    [alert = {title, body}]. *)
Theorem silent_push_sends_no_visible_block
    (endpoint_ids : list string) (title body : string)
    (deep_link_url image_url : option string) (custom_data : option dict)
    (silent_push : bool) (time_to_live : option Z) (priority : option string) :
  serializable (PyDict (or_empty custom_data)) = true ->
  let enriched := _prepare_custom_data custom_data deep_link_url image_url in
  let aps := aps_payload title body image_url silent_push in
  let gcm :=
    gcm_payload title body image_url silent_push enriched time_to_live
      priority in
  exists envelope raw_apns raw_gcm,
    message_request endpoint_ids title body deep_link_url image_url
      custom_data silent_push time_to_live priority = Ok envelope
    /\ channel_field envelope "GCMMessage" "RawContent" = Ok (PyStr raw_gcm)
    /\ json_dumps (PyDict gcm) = Ok raw_gcm
    /\ (if silent_push
        then dict_get "content_available" gcm = Some (PyInt 1)
             /\ dict_get "notification" gcm = None
        else dict_get "notification" gcm
             = Some (PyDict ([("title", PyStr title); ("body", PyStr body)]
                             ++ if truthy image_url
                                then [("image", of_opt_str image_url)]
                                else []))
             /\ dict_get "content_available" gcm = None)
    /\ channel_field envelope "APNSMessage" "RawContent" = Ok (PyStr raw_apns)
    /\ (dict_wf (or_empty custom_data) = true ->
        dict_get "aps" (or_empty custom_data) = None ->
        json_dumps (PyDict (("aps", PyDict aps) :: enriched)) = Ok raw_apns
        /\ (if silent_push
            then dict_get "content-available" aps = Some (PyInt 1)
                 /\ dict_get "alert" aps = None
            else dict_get "alert" aps
                 = Some (PyDict [("title", PyStr title); ("body", PyStr body)])
                 /\ dict_get "content-available" aps = None)).
Proof.
  intros Hcd enriched aps gcm.
  destruct (message_request_ok endpoint_ids title body deep_link_url image_url
              custom_data silent_push time_to_live priority Hcd)
    as [raw_apns [raw_gcm [Hraw_apns [Hraw_gcm Henv]]]].
  fold enriched in Hraw_apns, Hraw_gcm. fold aps in Hraw_apns.
  fold gcm in Hraw_gcm.
  destruct (silent_push_omits_visible_blocks title body image_url enriched
              time_to_live priority)
    as [[Hca [Halert [Hgca Hnotif]]] [Halert' [Hca' [Hnotif' Hgca']]]].
  eexists. exists raw_apns, raw_gcm.
  split; [ exact Henv | ]. split; [ reflexivity | ].
  split; [ exact Hraw_gcm | ]. split; [ | split; [ reflexivity | ] ].
  - subst gcm. destruct silent_push; split; assumption.
  - intros Hwf Haps. split.
    + rewrite payload_root_keeps_aps in Hraw_apns; auto.
      * now apply prepare_custom_data_wf.
      * unfold enriched. rewrite prepare_custom_data_other by discriminate.
        exact Haps.
    + subst aps. destruct silent_push; split; assumption.
Qed.

Lemma silent_push_sends_no_visible_block_witness :
  exists envelope raw_apns,
    message_request ["e1"] "Hi" "there" None None
      (Some [("campaign", PyInt 7)]) true None None = Ok envelope
    /\ channel_field envelope "APNSMessage" "RawContent" = Ok (PyStr raw_apns)
    /\ json_dumps
         (PyDict
            (("aps", PyDict (aps_payload "Hi" "there" None true))
             :: _prepare_custom_data (Some [("campaign", PyInt 7)]) None None))
       = Ok raw_apns
    /\ dict_get "content-available" (aps_payload "Hi" "there" None true)
       = Some (PyInt 1)
    /\ dict_get "alert" (aps_payload "Hi" "there" None true) = None.
Proof.
  destruct (silent_push_sends_no_visible_block ["e1"] "Hi" "there" None None
              (Some [("campaign", PyInt 7)]) true None None eq_refl)
    as [envelope [raw_apns [raw_gcm [Henv [_ [_ [_ [Hfield Haps]]]]]]]].
  destruct (Haps eq_refl eq_refl) as [Hraw [Hca Halert]].
  exists envelope, raw_apns. repeat split; assumption.
Defined.

(** C2 as stated fails on a silent push whose custom data has a key ["aps"]:
    what the APNS message serializes under ["aps"] is the caller's value,
    here with an [alert] and without [content-available]. *)
Lemma silent_push_with_caller_aps_counterexample :
  exists envelope raw,
    message_request ["e1"] "Hi" "there" None None
      (Some [("aps", PyDict [("alert", PyStr "mine")])]) true None None
      = Ok envelope
    /\ channel_field envelope "APNSMessage" "RawContent" = Ok (PyStr raw)
    /\ payload_root (aps_payload "Hi" "there" None true)
         (_prepare_custom_data
            (Some [("aps", PyDict [("alert", PyStr "mine")])]) None None)
       = [("aps", PyDict [("alert", PyStr "mine")]); ("deeplink", PyNone);
          ("image_url", PyNone)]
    /\ json_dumps
         (PyDict [("aps", PyDict [("alert", PyStr "mine")]);
                  ("deeplink", PyNone); ("image_url", PyNone)]) = Ok raw
    /\ dict_get "alert" [("alert", PyStr "mine")] = Some (PyStr "mine")
    /\ dict_get "content-available" [("alert", PyStr "mine")] = None.
Proof.
  eexists. eexists. split; [ vm_compute; reflexivity | ].
  split; [ reflexivity | ]. repeat split.
Qed.

(** C4, as the code has it.  For a request with a non-empty image URL and
    [silent_push = False], the GCM payload that the GCM message serializes
    has a [notification] block whose [image] is that URL; and when the custom
    data has no key ["aps"], the [aps] payload that the APNS message
    serializes under ["aps"] has [mutable-content = 1]. *)
Theorem image_url_is_sent_in_both_payloads
    (endpoint_ids : list string) (title body url : string)
    (deep_link_url : option string) (custom_data : option dict)
    (time_to_live : option Z) (priority : option string) :
  url <> "" ->
  serializable (PyDict (or_empty custom_data)) = true ->
  let enriched := _prepare_custom_data custom_data deep_link_url (Some url) in
  let aps := aps_payload title body (Some url) false in
  let gcm :=
    gcm_payload title body (Some url) false enriched time_to_live priority in
  exists envelope raw_apns raw_gcm notification,
    message_request endpoint_ids title body deep_link_url (Some url)
      custom_data false time_to_live priority = Ok envelope
    /\ channel_field envelope "GCMMessage" "RawContent" = Ok (PyStr raw_gcm)
    /\ json_dumps (PyDict gcm) = Ok raw_gcm
    /\ dict_get "notification" gcm = Some (PyDict notification)
    /\ dict_get "image" notification = Some (PyStr url)
    /\ channel_field envelope "APNSMessage" "RawContent" = Ok (PyStr raw_apns)
    /\ (dict_wf (or_empty custom_data) = true ->
        dict_get "aps" (or_empty custom_data) = None ->
        json_dumps (PyDict (("aps", PyDict aps) :: enriched)) = Ok raw_apns
        /\ dict_get "mutable-content" aps = Some (PyInt 1)).
Proof.
  intros Hurl Hcd enriched aps gcm.
  destruct (message_request_ok endpoint_ids title body deep_link_url
              (Some url) custom_data false time_to_live priority Hcd)
    as [raw_apns [raw_gcm [Hraw_apns [Hraw_gcm Henv]]]].
  fold enriched in Hraw_apns, Hraw_gcm. fold aps in Hraw_apns.
  fold gcm in Hraw_gcm.
  destruct (image_url_marks_both_payloads title body url enriched
              time_to_live priority Hurl)
    as [Hmutable [notification [Hnotif Himage]]].
  eexists. exists raw_apns, raw_gcm, notification.
  split; [ exact Henv | ]. split; [ reflexivity | ].
  split; [ exact Hraw_gcm | ]. split; [ exact Hnotif | ].
  split; [ exact Himage | ]. split; [ reflexivity | ].
  intros Hwf Haps. split; [ | exact Hmutable ].
  rewrite payload_root_keeps_aps in Hraw_apns; auto.
  - now apply prepare_custom_data_wf.
  - unfold enriched. rewrite prepare_custom_data_other by discriminate.
    exact Haps.
Qed.

Lemma image_url_is_sent_in_both_payloads_witness :
  exists envelope raw_apns raw_gcm,
    message_request ["e1"; "e2"] "Hi" "there" None (Some "http://x/y.png")
      None false None None = Ok envelope
    /\ channel_field envelope "APNSMessage" "RawContent" = Ok (PyStr raw_apns)
    /\ json_dumps
         (PyDict
            [("aps",
               PyDict [("sound", PyStr "default");
                       ("alert", PyDict [("title", PyStr "Hi");
                                         ("body", PyStr "there")]);
                       ("mutable-content", PyInt 1)]);
             ("deeplink", PyNone);
             ("image_url", PyStr "http://x/y.png")]) = Ok raw_apns
    /\ channel_field envelope "GCMMessage" "RawContent" = Ok (PyStr raw_gcm)
    /\ json_dumps
         (PyDict
            [("data",
               PyDict [("deeplink", PyNone);
                       ("image_url", PyStr "http://x/y.png");
                       ("title", PyStr "Hi"); ("body", PyStr "there")]);
             ("notification",
               PyDict [("title", PyStr "Hi"); ("body", PyStr "there");
                       ("image", PyStr "http://x/y.png")])]) = Ok raw_gcm.
Proof.
  assert (Hurl : "http://x/y.png" <> "") by discriminate.
  destruct (image_url_is_sent_in_both_payloads ["e1"; "e2"] "Hi" "there"
              "http://x/y.png" None None None None Hurl eq_refl)
    as [envelope [raw_apns [raw_gcm [notification
         [Henv [Hgcm [Hraw_gcm [_ [_ [Hapns Haps]]]]]]]]]].
  destruct (Haps eq_refl eq_refl) as [Hraw_apns _].
  exists envelope, raw_apns, raw_gcm.
  split; [ exact Henv | ]. split; [ exact Hapns | ].
  split; [ exact Hraw_apns | ]. split; [ exact Hgcm | exact Hraw_gcm ].
Defined.

(** C4 as stated fails on a request whose custom data has a key ["aps"]:
    with an image URL and no silent flag, what the APNS message serializes
    under ["aps"] is the caller's value, and [mutable-content] is nowhere in
    the root. *)
Lemma image_url_with_caller_aps_counterexample :
  exists envelope raw,
    message_request ["e1"] "Hi" "there" None (Some "http://x/y.png")
      (Some [("aps", PyStr "x")]) false None None = Ok envelope
    /\ channel_field envelope "APNSMessage" "RawContent" = Ok (PyStr raw)
    /\ payload_root (aps_payload "Hi" "there" (Some "http://x/y.png") false)
         (_prepare_custom_data (Some [("aps", PyStr "x")]) None
            (Some "http://x/y.png"))
       = [("aps", PyStr "x"); ("deeplink", PyNone);
          ("image_url", PyStr "http://x/y.png")]
    /\ json_dumps
         (PyDict [("aps", PyStr "x"); ("deeplink", PyNone);
                  ("image_url", PyStr "http://x/y.png")]) = Ok raw
    /\ dict_get "aps"
         [("aps", PyStr "x"); ("deeplink", PyNone);
          ("image_url", PyStr "http://x/y.png")] = Some (PyStr "x")
    /\ dict_get "mutable-content"
         [("aps", PyStr "x"); ("deeplink", PyNone);
          ("image_url", PyStr "http://x/y.png")] = None.
Proof.
  eexists. eexists. split; [ vm_compute; reflexivity | ].
  split; [ reflexivity | ]. repeat split.
Qed.

(** The request of the specification's end-to-end example. *)
Example end_to_end_example :
  exists raw_apns raw_gcm,
    message_request ["e1"; "e2"] "Hi" "there" None (Some "http://x/y.png")
      None false None None
    = Ok (PyDict
            [("Endpoints", PyDict [("e1", PyDict []); ("e2", PyDict [])]);
             ("MessageConfiguration",
               PyDict
                 [("APNSMessage",
                    PyDict [("Action", PyStr "OPEN_APP");
                            ("RawContent", PyStr raw_apns)]);
                  ("GCMMessage",
                    PyDict [("Action", PyStr "OPEN_APP");
                            ("RawContent", PyStr raw_gcm)]);
                  ("DefaultPushNotificationMessage",
                    PyDict [("Action", PyStr "OPEN_APP");
                            ("Title", PyStr "Hi");
                            ("Body", PyStr "there")])])])
    /\ json_dumps
         (PyDict
            [("aps",
               PyDict [("sound", PyStr "default");
                       ("alert", PyDict [("title", PyStr "Hi");
                                         ("body", PyStr "there")]);
                       ("mutable-content", PyInt 1)]);
             ("deeplink", PyNone);
             ("image_url", PyStr "http://x/y.png")]) = Ok raw_apns
    /\ json_dumps
         (PyDict
            [("data",
               PyDict [("deeplink", PyNone);
                       ("image_url", PyStr "http://x/y.png");
                       ("title", PyStr "Hi"); ("body", PyStr "there")]);
             ("notification",
               PyDict [("title", PyStr "Hi"); ("body", PyStr "there");
                       ("image", PyStr "http://x/y.png")])]) = Ok raw_gcm.
Proof. eexists. eexists. repeat split; vm_compute; reflexivity. Qed.

(** ** Endpoint lookups *)

Lemma send_pinpoint_push_notification_run application_id endpoint_ids title
    body deep_link_url image_url custom_data silent_push time_to_live priority
    envelope (t : transport call) trace :
  message_request endpoint_ids title body deep_link_url image_url custom_data
    silent_push time_to_live priority = Ok envelope ->
  send_pinpoint_push_notification application_id endpoint_ids title body
    deep_link_url image_url custom_data silent_push time_to_live priority
    t trace
  = (t trace (send_messages application_id envelope),
     trace ++ [send_messages application_id envelope]).
Proof.
  intros Henv. unfold send_pinpoint_push_notification, bind, lift, perform.
  now rewrite Henv.
Qed.

(** C6.  [get_pinpoint_endpoint] and [get_pinpoint_user_endpoints] catch the
    transport's [NotFoundException] and return [{"error": message}] with the
    message of the transport's error response; every other failure of the
    transport leaves them unchanged, and so does every failure, also a
    [NotFoundException], of the transport's [send_messages] under
    [send_pinpoint_push_notification]. *)
Theorem not_found_translated_by_lookups_only
    (t : transport call) (trace : list call) (application_id id : string) :
  (forall response error message,
      py_getitem response "Error" = Ok error ->
      py_getitem error "Message" = Ok message ->
      (t trace (get_endpoint application_id id)
         = Raise (NotFoundException response) ->
       get_pinpoint_endpoint application_id id t trace
         = (Ok (PyDict [("error", message)]),
            trace ++ [get_endpoint application_id id]))
      /\ (t trace (get_user_endpoints application_id id)
            = Raise (NotFoundException response) ->
          get_pinpoint_user_endpoints application_id id t trace
            = (Ok (PyDict [("error", message)]),
               trace ++ [get_user_endpoints application_id id])))
  /\ (forall e, (forall response, e <> NotFoundException response) ->
        (t trace (get_endpoint application_id id) = Raise e ->
         get_pinpoint_endpoint application_id id t trace
           = (Raise e, trace ++ [get_endpoint application_id id]))
        /\ (t trace (get_user_endpoints application_id id) = Raise e ->
            get_pinpoint_user_endpoints application_id id t trace
              = (Raise e, trace ++ [get_user_endpoints application_id id])))
  /\ (forall e endpoint_ids title body deep_link_url image_url custom_data
        silent_push time_to_live priority envelope,
        message_request endpoint_ids title body deep_link_url image_url
          custom_data silent_push time_to_live priority = Ok envelope ->
        t trace (send_messages application_id envelope) = Raise e ->
        send_pinpoint_push_notification application_id endpoint_ids title body
          deep_link_url image_url custom_data silent_push time_to_live
          priority t trace
        = (Raise e, trace ++ [send_messages application_id envelope])).
Proof.
  split; [ | split ].
  - intros response error message Herror Hmessage.
    assert (Hresult :
      error_result response = Ok (PyDict [("error", message)])).
    { unfold error_result. rewrite Herror. cbn [obind]. now rewrite Hmessage. }
    unfold get_pinpoint_endpoint, get_pinpoint_user_endpoints, try_except,
      perform, lift.
    split; intros ->; now rewrite Hresult.
  - intros e Hother.
    unfold get_pinpoint_endpoint, get_pinpoint_user_endpoints, try_except,
      perform.
    split; intros ->; destruct e; try reflexivity;
      now elim (Hother response).
  - intros e endpoint_ids title body deep_link_url image_url custom_data
      silent_push time_to_live priority envelope Henv Hraise.
    rewrite (send_pinpoint_push_notification_run _ _ _ _ _ _ _ _ _ _ envelope)
      by assumption.
    now rewrite Hraise.
Qed.

Lemma not_found_translated_by_lookups_only_witness :
  get_pinpoint_endpoint "app" "e1" failing_transport []
    = (Ok (PyDict [("error", PyStr "Resource not found")]),
       [get_endpoint "app" "e1"])
  /\ get_pinpoint_user_endpoints "app" "e1" failing_transport []
     = (Ok (PyDict [("error", PyStr "Resource not found")]),
        [get_user_endpoints "app" "e1"])
  /\ exists envelope,
       send_pinpoint_push_notification "app" ["e1"] "Hi" "there" None None
         None false None None failing_transport []
       = (Raise (NotFoundException not_found_response),
          [send_messages "app" envelope]).
Proof.
  destruct (not_found_translated_by_lookups_only failing_transport [] "app"
              "e1") as [Hlookup [_ Hsend]].
  destruct (Hlookup not_found_response
              (PyDict [("Code", PyStr "NotFoundException");
                       ("Message", PyStr "Resource not found")])
              (PyStr "Resource not found") eq_refl eq_refl)
    as [Hendpoint Huser].
  split; [ apply Hendpoint; reflexivity | ].
  split; [ apply Huser; reflexivity | ].
  destruct (message_request_ok ["e1"] "Hi" "there" None None None false None
              None eq_refl) as [raw_apns [raw_gcm [_ [_ Henv]]]].
  eexists. apply (Hsend _ _ _ _ _ _ _ _ _ _ _ Henv). reflexivity.
Defined.

(** The lookups hand a found endpoint back as the transport gave it. *)
Lemma lookups_pass_results_through (t : transport call) trace application_id
    id response :
  (t trace (get_endpoint application_id id) = Ok response ->
   get_pinpoint_endpoint application_id id t trace
     = (Ok response, trace ++ [get_endpoint application_id id]))
  /\ (t trace (get_user_endpoints application_id id) = Ok response ->
      get_pinpoint_user_endpoints application_id id t trace
        = (Ok response, trace ++ [get_user_endpoints application_id id])).
Proof.
  unfold get_pinpoint_endpoint, get_pinpoint_user_endpoints, try_except,
    perform.
  split; now intros ->.
Qed.

(** ** The SMS-gateway adapter *)

(** C7.  On the SMS-gateway adapter [send_email_notification] and
    [send_push_notification] fail with [NotSupported] whatever the arguments,
    the adapter and the transport are, and leave the trace of transport calls
    as it was. *)
Theorem sms_gateway_rejects_email_and_push
    (self : Twilio.TwilioNotifier) (t : transport Twilio.call)
    (trace : list Twilio.call)
    (subject : option string) (email_data : dict) (recipients : list string)
    (sender template : string) (cc_emails bcc_emails : option (list string))
    (message : string) (extra : dict) :
  Twilio.send_email_notification self subject email_data recipients sender
    template cc_emails bcc_emails extra t trace = (Raise NotSupported, trace)
  /\ Twilio.send_push_notification self message extra t trace
     = (Raise NotSupported, trace).
Proof. split; reflexivity. Qed.

(** C8, as the repository has it.  On the SMS-gateway adapter
    [send_sms_notification] with no origin phone number configured fails with
    the validation error "Twilio phone number must be provided for sending
    SMS.", and the transport has not been called: the trace is as it was. *)
Theorem sms_without_origin_number_fails_before_transport
    (self : Twilio.TwilioNotifier) (t : transport Twilio.call)
    (trace : list Twilio.call) (phone_number message : string) :
  Twilio.twilio_phone_number self = None ->
  Twilio.send_sms_notification self phone_number message t trace
  = (Raise (ValidationError
              "Twilio phone number must be provided for sending SMS."),
     trace).
Proof.
  intros Horigin. unfold Twilio.send_sms_notification. now rewrite Horigin.
Qed.

Lemma sms_without_origin_number_fails_before_transport_witness :
  Twilio.send_sms_notification
    {| Twilio.account_sid := "AC0";
       Twilio.auth_token := "token";
       Twilio.twilio_phone_number := None |}
    "+19702927873" "Test SMS message"
    (fun _ _ => Ok (PyDict [("id", PyStr "SM1")])) []
  = (Raise (ValidationError
              "Twilio phone number must be provided for sending SMS."),
     []).
Proof.
  apply sms_without_origin_number_fails_before_transport.
  reflexivity.
Defined.

(** C8 as stated names another message: the error raised is a validation
    error, the transport is not called, but the message is not "origin phone
    number must be provided". *)
Lemma sms_error_message_counterexample :
  exists msg,
    Twilio.send_sms_notification
      {| Twilio.account_sid := "AC0";
         Twilio.auth_token := "token";
         Twilio.twilio_phone_number := None |}
      "+19702927873" "Test SMS message"
      (fun _ _ => Ok (PyDict [("id", PyStr "SM1")])) []
    = (Raise (ValidationError msg), [])
    /\ msg <> "origin phone number must be provided".
Proof. eexists. split; [ reflexivity | discriminate ]. Qed.

(** With an origin number the one transport call is made and its message
    identifier returned. *)
Lemma sms_with_origin_number_calls_transport :
  let self :=
    {| Twilio.account_sid := "AC0";
       Twilio.auth_token := "token";
       Twilio.twilio_phone_number := Some "+15005550006" |} in
  Twilio.send_sms_notification self "+19702927873" "Test SMS message"
    (fun _ _ => Ok (PyDict [("id", PyStr "SM1")])) []
  = (Ok (PyStr "SM1"),
     [Twilio.create_message "+15005550006" "+19702927873" "Test SMS message"]).
Proof. reflexivity. Qed.

(** ** The factory *)




(** * Further properties of [pinpoint_client.py] *)

(** ** Unpacking and lookups *)

(** Reading a key after [d.update(other)]: the value of [other] if it has
    the key, the value of [d] otherwise. *)
Lemma dict_get_update k d other :
  dict_wf other = true ->
  dict_get k (dict_update d other)
  = match dict_get k other with
    | Some v => Some v
    | None => dict_get k d
    end.
Proof.
  unfold dict_update. revert d.
  induction other as [ | [k1 v1] other IH ]; intros d Hwf; [ reflexivity | ].
  cbn [dict_wf] in Hwf. apply andb_prop in Hwf as [Hk1 Hwf].
  apply negb_true_iff in Hk1. unfold dict_has in Hk1.
  cbn [fold_left fst snd dict_get]. rewrite IH by assumption.
  destruct (String.eqb_spec k k1) as [-> | Hne].
  - destruct (dict_get k1 other); [ discriminate | ].
    apply dict_get_set_same.
  - destruct (dict_get k other); [ reflexivity | ].
    now apply dict_get_set_other.
Qed.

(** X1.  The [data] block of the GCM payload holds the request's title and
    body under ["title"] and ["body"], whatever the custom data holds there,
    and every other key of the custom data with its value. *)
Theorem gcm_data_merges_custom_data_under_title_and_body
    (title body : string) (image_url : option string) (silent_push : bool)
    (custom_data : dict) (time_to_live : option Z) (priority : option string) :
  dict_wf custom_data = true ->
  exists data,
    dict_get "data"
      (gcm_payload title body image_url silent_push custom_data time_to_live
         priority) = Some (PyDict data)
    /\ dict_get "title" data = Some (PyStr title)
    /\ dict_get "body" data = Some (PyStr body)
    /\ forall k, k <> "title" -> k <> "body" ->
         dict_get k data = dict_get k custom_data.
Proof.
  intros Hwf.
  exists (dict_set "body" (PyStr body)
            (dict_set "title" (PyStr title) (dict_update [] custom_data))).
  split; [ | split; [ | split ] ].
  - unfold gcm_payload.
    destruct time_to_live, (truthy priority), silent_push, (truthy image_url);
      reflexivity.
  - rewrite dict_get_set_other by discriminate. apply dict_get_set_same.
  - apply dict_get_set_same.
  - intros k Ht Hb. rewrite !dict_get_set_other by assumption.
    rewrite dict_get_update by assumption.
    now destruct (dict_get k custom_data).
Qed.

Lemma gcm_data_merges_custom_data_under_title_and_body_witness :
  exists data,
    dict_get "data"
      (gcm_payload "Hi" "there" None true
         (_prepare_custom_data
            (Some [("title", PyStr "theirs"); ("campaign", PyInt 7)])
            (Some "app://home") None)
         None None) = Some (PyDict data)
    /\ dict_get "title" data = Some (PyStr "Hi")
    /\ dict_get "campaign" data = Some (PyInt 7)
    /\ dict_get "deeplink" data = Some (PyStr "app://home").
Proof.
  destruct (gcm_data_merges_custom_data_under_title_and_body "Hi" "there"
              None true
              (_prepare_custom_data
                 (Some [("title", PyStr "theirs"); ("campaign", PyInt 7)])
                 (Some "app://home") None)
              None None eq_refl) as [data [Hdata [Htitle [_ Hother]]]].
  exists data. split; [ exact Hdata | split; [ exact Htitle | split ] ].
  - rewrite Hother by discriminate. reflexivity.
  - rewrite Hother by discriminate. reflexivity.
Defined.

(** X2.  The GCM payload holds ["priority"] exactly when a non-empty priority
    is given, and ["time_to_live"] exactly when a time to live is given, zero
    included. *)
Theorem gcm_priority_and_time_to_live
    (title body : string) (image_url : option string) (silent_push : bool)
    (custom_data : dict) (time_to_live : option Z) (priority : option string) :
  let gcm :=
    gcm_payload title body image_url silent_push custom_data time_to_live
      priority in
  dict_get "priority" gcm
    = (if truthy priority then Some (of_opt_str priority) else None)
  /\ dict_get "time_to_live" gcm = option_map PyInt time_to_live.
Proof.
  intros gcm. subst gcm. unfold gcm_payload.
  split;
    destruct time_to_live, (truthy priority), silent_push, (truthy image_url);
    reflexivity.
Qed.

(** ** Custom data that cannot be serialized *)

(** [json.dumps] fails with [TypeError] only. *)
Lemma json_dumps_raises_type_error v :
  forall e, json_dumps v = Raise e -> exists msg, e = TypeError msg.
Proof.
  induction v as [ | b | n | s0 | l IH | d IH | ty ] using value_nested_ind;
    intros e He; try discriminate.
  - destruct b; discriminate.
  - cbn [json_dumps] in He.
    match type of He with
    | obind ?c _ = _ => destruct c as [ss | e'] eqn:Hss; [ discriminate | ]
    end.
    cbn [obind] in He. injection He as <-.
    revert e' Hss. induction IH as [ | x l Hx _ IHl ]; intros e' Hss.
    + discriminate.
    + destruct (json_dumps x) as [sx | ex] eqn:Hsx.
      * cbn [obind] in Hss.
        match type of Hss with
        | obind ?c _ = _ => destruct c as [ss' | e''] eqn:Hss'; [ discriminate | ]
        end.
        cbn [obind] in Hss. injection Hss as <-. eapply IHl; eauto.
      * cbn [obind] in Hss. injection Hss as <-.
        apply Hx. exact Hsx || reflexivity.
  - cbn [json_dumps] in He.
    match type of He with
    | obind ?c _ = _ => destruct c as [ss | e'] eqn:Hss; [ discriminate | ]
    end.
    cbn [obind] in He. injection He as <-.
    revert e' Hss. induction IH as [ | [k x] d Hx _ IHd ]; intros e' Hss.
    + discriminate.
    + destruct (json_dumps x) as [sx | ex] eqn:Hsx.
      * cbn [obind] in Hss.
        match type of Hss with
        | obind ?c _ = _ => destruct c as [ss' | e''] eqn:Hss'; [ discriminate | ]
        end.
        cbn [obind] in Hss. injection Hss as <-. eapply IHd; eauto.
      * cbn [obind] in Hss. injection Hss as <-.
        apply Hx. exact Hsx || reflexivity.
  - simpl in He. injection He as <-. eauto.
Qed.

Lemma json_dumps_rejects v :
  serializable v = false -> exists msg, json_dumps v = Raise (TypeError msg).
Proof.
  intros Hser. destruct (json_dumps v) as [s | e] eqn:Hv.
  - rewrite (json_dumps_ok_serializable v s Hv) in Hser. discriminate.
  - destruct (json_dumps_raises_type_error v e Hv) as [msg ->]. eauto.
Qed.

(** Serializability of a dictionary, read key by key. *)
Lemma serializable_split k d :
  dict_wf d = true ->
  serializable (PyDict d)
  = (match dict_get k d with Some v => serializable v | None => true end
     && serializable (PyDict (dict_remove k d)))%bool.
Proof.
  unfold dict_remove. induction d as [ | [k' v'] d IH ]; intros Hwf.
  - reflexivity.
  - cbn [dict_wf] in Hwf. apply andb_prop in Hwf as [Hk' Hwf].
    apply negb_true_iff in Hk'. unfold dict_has in Hk'.
    cbn [dict_get filter fst].
    change (serializable (PyDict ((k', v') :: d)))
      with (serializable v' && serializable (PyDict d))%bool.
    destruct (String.eqb_spec k k') as [-> | Hne]; cbn [negb].
    + rewrite (IH Hwf). destruct (dict_get k' d); [ discriminate | ].
      reflexivity.
    + change (serializable (PyDict ((k', v') :: ?r)))
        with (serializable v' && serializable (PyDict r))%bool.
      rewrite (IH Hwf).
      destruct (dict_get k d) as [v | ];
        destruct (serializable v'); try destruct (serializable v); reflexivity.
Qed.

Lemma payload_root_serializable aps custom_data :
  dict_wf custom_data = true ->
  serializable (PyDict aps) = true ->
  serializable (PyDict (payload_root aps custom_data))
  = serializable (PyDict custom_data).
Proof.
  intros Hwf Haps. unfold payload_root.
  rewrite dict_update_single by assumption.
  rewrite (serializable_split "aps" custom_data Hwf).
  change (serializable (PyDict ((?k, ?x) :: ?r)))
    with (serializable x && serializable (PyDict r))%bool.
  destruct (dict_get "aps" custom_data); [ reflexivity | ].
  now rewrite Haps.
Qed.



(** ** Endpoint lookups, further *)

(** X4.  When the transport's [NotFoundException] carries a response without
    an ["Error"] entry, or with an ["Error"] entry without ["Message"], both
    lookups raise the [KeyError] of their handler in place of the
    [NotFoundException]; the transport has been called once. *)
Theorem lookup_not_found_without_message_raises_key_error
    (t : transport call) (trace : list call) (application_id id : string)
    (response : dict) :
  (dict_get "Error" response = None ->
     (t trace (get_endpoint application_id id)
        = Raise (NotFoundException (PyDict response)) ->
      get_pinpoint_endpoint application_id id t trace
        = (Raise (KeyError "Error"),
           trace ++ [get_endpoint application_id id]))
     /\ (t trace (get_user_endpoints application_id id)
           = Raise (NotFoundException (PyDict response)) ->
         get_pinpoint_user_endpoints application_id id t trace
           = (Raise (KeyError "Error"),
              trace ++ [get_user_endpoints application_id id])))
  /\ (forall error,
        dict_get "Error" response = Some (PyDict error) ->
        dict_get "Message" error = None ->
        (t trace (get_endpoint application_id id)
           = Raise (NotFoundException (PyDict response)) ->
         get_pinpoint_endpoint application_id id t trace
           = (Raise (KeyError "Message"),
              trace ++ [get_endpoint application_id id]))
        /\ (t trace (get_user_endpoints application_id id)
              = Raise (NotFoundException (PyDict response)) ->
            get_pinpoint_user_endpoints application_id id t trace
              = (Raise (KeyError "Message"),
                 trace ++ [get_user_endpoints application_id id]))).
Proof.
  unfold get_pinpoint_endpoint, get_pinpoint_user_endpoints, try_except,
    perform, lift, error_result.
  split.
  - intros Herror. split; intros ->; cbn [py_getitem]; now rewrite Herror.
  - intros error Herror Hmessage.
    split; intros ->; cbn [py_getitem]; rewrite Herror; cbn [obind py_getitem];
      now rewrite Hmessage.
Qed.

Lemma lookup_not_found_without_message_raises_key_error_witness :
  get_pinpoint_endpoint "app" "e1"
    (fun _ _ =>
       Raise (NotFoundException
                (PyDict [("Error", PyDict [("Code", PyStr "NotFound")])])))
    []
  = (Raise (KeyError "Message"), [get_endpoint "app" "e1"]).
Proof.
  destruct (lookup_not_found_without_message_raises_key_error
              (fun _ _ =>
                 Raise (NotFoundException
                          (PyDict
                             [("Error", PyDict [("Code", PyStr "NotFound")])])))
              [] "app" "e1"
              [("Error", PyDict [("Code", PyStr "NotFound")])])
    as [_ Hmessage].
  destruct (Hmessage [("Code", PyStr "NotFound")] eq_refl eq_refl)
    as [Hendpoint _].
  apply Hendpoint. reflexivity.
Defined.

(** X5.  Whatever the transport answers, each lookup calls it exactly once,
    with the application id and the id it was given, and a response of the
    transport is returned as it is: no retry, no second call from the
    handler. *)
Theorem lookups_call_the_transport_once
    (t : transport call) (trace : list call) (application_id id : string) :
  (snd (get_pinpoint_endpoint application_id id t trace)
     = trace ++ [get_endpoint application_id id]
   /\ snd (get_pinpoint_user_endpoints application_id id t trace)
      = trace ++ [get_user_endpoints application_id id])
  /\ (forall response,
        (t trace (get_endpoint application_id id) = Ok response ->
         fst (get_pinpoint_endpoint application_id id t trace) = Ok response)
        /\ (t trace (get_user_endpoints application_id id) = Ok response ->
            fst (get_pinpoint_user_endpoints application_id id t trace)
              = Ok response)).
Proof.
  unfold get_pinpoint_endpoint, get_pinpoint_user_endpoints, try_except,
    perform, lift.
  split; [ split | intros response; split; now intros -> ].
  - destruct (t trace (get_endpoint application_id id)) as [r | e];
      [ reflexivity | destruct e; reflexivity ].
  - destruct (t trace (get_user_endpoints application_id id)) as [r | e];
      [ reflexivity | destruct e; reflexivity ].
Qed.

Lemma lookups_call_the_transport_once_witness :
  get_pinpoint_user_endpoints "app" "u1"
    (fun _ _ => Ok (PyDict [("EndpointsResponse", PyDict [])])) []
  = (Ok (PyDict [("EndpointsResponse", PyDict [])]),
     [get_user_endpoints "app" "u1"]).
Proof.
  pose proof (lookups_call_the_transport_once
                (fun _ _ => Ok (PyDict [("EndpointsResponse", PyDict [])]))
                [] "app" "u1") as [[_ Htrace] Hresult].
  destruct (Hresult (PyDict [("EndpointsResponse", PyDict [])]))
    as [_ Huser].
  specialize (Huser eq_refl).
  destruct (get_pinpoint_user_endpoints "app" "u1" _ []) as [result trace'].
  simpl in Htrace, Huser. now subst.
Defined.

(** ** The serialized payloads *)

(** X6.  For a request whose custom data has no key ["aps"], the
    [RawContent] of the APNS message is the serialization of the root that
    starts with the built [aps] payload and goes on with the enriched custom
    data, and the [RawContent] of the GCM message is the serialization of the
    built GCM payload. *)
Theorem raw_contents_serialize_the_payloads
    (endpoint_ids : list string) (title body : string)
    (deep_link_url image_url : option string) (custom_data : option dict)
    (silent_push : bool) (time_to_live : option Z) (priority : option string) :
  dict_wf (or_empty custom_data) = true ->
  dict_get "aps" (or_empty custom_data) = None ->
  serializable (PyDict (or_empty custom_data)) = true ->
  let enriched := _prepare_custom_data custom_data deep_link_url image_url in
  exists envelope raw_apns raw_gcm,
    message_request endpoint_ids title body deep_link_url image_url
      custom_data silent_push time_to_live priority = Ok envelope
    /\ channel_field envelope "APNSMessage" "RawContent" = Ok (PyStr raw_apns)
    /\ json_dumps
         (PyDict (("aps",
                    PyDict (aps_payload title body image_url silent_push))
                  :: enriched)) = Ok raw_apns
    /\ channel_field envelope "GCMMessage" "RawContent" = Ok (PyStr raw_gcm)
    /\ json_dumps
         (PyDict (gcm_payload title body image_url silent_push enriched
                    time_to_live priority)) = Ok raw_gcm.
Proof.
  intros Hwf Haps Hser enriched.
  destruct (message_request_ok endpoint_ids title body deep_link_url image_url
              custom_data silent_push time_to_live priority Hser)
    as [raw_apns [raw_gcm [Hraw_apns [Hraw_gcm Henv]]]].
  fold enriched in Hraw_apns, Hraw_gcm.
  rewrite payload_root_keeps_aps in Hraw_apns.
  - eexists. exists raw_apns, raw_gcm.
    split; [ exact Henv | ].
    split; [ reflexivity | ]. split; [ exact Hraw_apns | ].
    split; [ reflexivity | exact Hraw_gcm ].
  - now apply prepare_custom_data_wf.
  - unfold enriched. rewrite prepare_custom_data_other by discriminate.
    exact Haps.
Qed.

Lemma raw_contents_serialize_the_payloads_witness :
  exists envelope raw_apns,
    message_request ["e1"] "Hi" "there" None None
      (Some [("campaign", PyInt 7)]) true None None = Ok envelope
    /\ channel_field envelope "APNSMessage" "RawContent" = Ok (PyStr raw_apns)
    /\ json_dumps
         (PyDict [("aps", PyDict [("sound", PyStr "default");
                                  ("content-available", PyInt 1)]);
                  ("campaign", PyInt 7); ("deeplink", PyNone);
                  ("image_url", PyNone)]) = Ok raw_apns.
Proof.
  destruct (raw_contents_serialize_the_payloads ["e1"] "Hi" "there" None None
              (Some [("campaign", PyInt 7)]) true None None eq_refl eq_refl
              eq_refl)
    as [envelope [raw_apns [raw_gcm [Henv [Hfield [Hraw _]]]]]].
  exists envelope, raw_apns. repeat split; assumption.
Defined.

(** X7.  The built [aps] payload always starts with [sound = "default"],
    goes on with [content-available] for a silent push and with [alert]
    otherwise, and ends with [mutable-content = 1] exactly when a non-empty
    image URL is given, for a silent push too; it has no other key. *)
Theorem aps_payload_keys
    (title body : string) (image_url : option string) (silent_push : bool) :
  let aps := aps_payload title body image_url silent_push in
  dict_get "sound" aps = Some (PyStr "default")
  /\ dict_get "mutable-content" aps
     = (if truthy image_url then Some (PyInt 1) else None)
  /\ dict_keys aps
     = ["sound"; if silent_push then "content-available" else "alert"]
       ++ (if truthy image_url then ["mutable-content"] else []).
Proof.
  intros aps. subst aps. unfold aps_payload.
  destruct silent_push, (truthy image_url); repeat split.
Qed.

(** ** Empty strings *)

(** X8.  An empty deep-link URL is stored by the enrichment as the empty
    string, not as null, yet the request is handled as one without deep
    link: the action is ["OPEN_APP"] and no message has a [Url] key.  An
    empty image URL is stored as the empty string as well, and sets neither
    [mutable-content] nor the [image] of the GCM notification. *)
Theorem empty_urls_are_stored_but_not_acted_on
    (endpoint_ids : list string) (title body : string)
    (deep_link_url image_url : option string) (custom_data : option dict)
    (silent_push : bool) (time_to_live : option Z) (priority : option string) :
  serializable (PyDict (or_empty custom_data)) = true ->
  (exists envelope,
     message_request endpoint_ids title body (Some "") image_url custom_data
       silent_push time_to_live priority = Ok envelope
     /\ dict_get "deeplink"
          (_prepare_custom_data custom_data (Some "") image_url)
        = Some (PyStr "")
     /\ forall channel,
          In channel ["APNSMessage"; "GCMMessage";
                      "DefaultPushNotificationMessage"] ->
          channel_field envelope channel "Action" = Ok (PyStr "OPEN_APP")
          /\ channel_field envelope channel "Url" = Raise (KeyError "Url"))
  /\ (dict_get "image_url"
        (_prepare_custom_data custom_data deep_link_url (Some ""))
      = Some (PyStr "")
      /\ dict_get "mutable-content"
           (aps_payload title body (Some "") silent_push) = None
      /\ dict_get "notification"
           (gcm_payload title body (Some "") false
              (_prepare_custom_data custom_data deep_link_url (Some ""))
              time_to_live priority)
         = Some (PyDict [("title", PyStr title); ("body", PyStr body)])).
Proof.
  intros Hcd. split.
  - destruct (message_request_ok endpoint_ids title body (Some "") image_url
                custom_data silent_push time_to_live priority Hcd)
      as [raw_apns [raw_gcm [_ [_ Henv]]]].
    eexists. split; [ exact Henv | ].
    split; [ apply prepare_custom_data_deeplink | ].
    intros channel [<- | [<- | [<- | []]]]; split; reflexivity.
  - split; [ apply prepare_custom_data_image_url | ].
    split; [ now destruct silent_push | ].
    unfold gcm_payload.
    destruct time_to_live, (truthy priority); reflexivity.
Qed.

Lemma empty_urls_are_stored_but_not_acted_on_witness :
  exists envelope,
    message_request ["e1"] "Hi" "there" (Some "") None None false None None
      = Ok envelope
    /\ channel_field envelope "DefaultPushNotificationMessage" "Action"
       = Ok (PyStr "OPEN_APP")
    /\ channel_field envelope "DefaultPushNotificationMessage" "Url"
       = Raise (KeyError "Url").
Proof.
  destruct (empty_urls_are_stored_but_not_acted_on ["e1"] "Hi" "there" None
              None None false None None eq_refl)
    as [[envelope [Henv [_ Hchannels]]] _].
  exists envelope. split; [ exact Henv | ].
  apply Hchannels. simpl. auto.
Defined.

(** ** The envelope *)

(** X9.  The envelope of every request that is built has the two entries
    [Endpoints] and [MessageConfiguration], in this order, and the
    configuration has the three channels [APNSMessage], [GCMMessage] and
    [DefaultPushNotificationMessage]; the three messages carry the same
    action; the default message carries the title and the body as they were
    given and no [RawContent], the other two carry a [RawContent] string and
    neither [Title] nor [Body]. *)
Theorem envelope_has_three_channel_messages
    (endpoint_ids : list string) (title body : string)
    (deep_link_url image_url : option string) (custom_data : option dict)
    (silent_push : bool) (time_to_live : option Z) (priority : option string) :
  serializable (PyDict (or_empty custom_data)) = true ->
  exists top configuration,
    message_request endpoint_ids title body deep_link_url image_url
      custom_data silent_push time_to_live priority = Ok (PyDict top)
    /\ dict_keys top = ["Endpoints"; "MessageConfiguration"]
    /\ dict_get "MessageConfiguration" top = Some (PyDict configuration)
    /\ dict_keys configuration
       = ["APNSMessage"; "GCMMessage"; "DefaultPushNotificationMessage"]
    /\ (forall channel, In channel (dict_keys configuration) ->
          channel_field (PyDict top) channel "Action"
          = Ok (PyStr (push_action deep_link_url)))
    /\ (channel_field (PyDict top) "DefaultPushNotificationMessage" "Title"
          = Ok (PyStr title)
        /\ channel_field (PyDict top) "DefaultPushNotificationMessage" "Body"
           = Ok (PyStr body)
        /\ channel_field (PyDict top) "DefaultPushNotificationMessage"
             "RawContent" = Raise (KeyError "RawContent"))
    /\ (forall channel, In channel ["APNSMessage"; "GCMMessage"] ->
          (exists raw,
             channel_field (PyDict top) channel "RawContent" = Ok (PyStr raw))
          /\ channel_field (PyDict top) channel "Title"
             = Raise (KeyError "Title")
          /\ channel_field (PyDict top) channel "Body"
             = Raise (KeyError "Body")).
Proof.
  intros Hcd.
  destruct (message_request_ok endpoint_ids title body deep_link_url image_url
              custom_data silent_push time_to_live priority Hcd)
    as [raw_apns [raw_gcm [_ [_ Henv]]]].
  eexists. eexists. split; [ exact Henv | ].
  split; [ reflexivity | ]. split; [ reflexivity | ].
  split; [ reflexivity | ]. split; [ | split ].
  - intros channel [<- | [<- | [<- | []]]]; reflexivity.
  - destruct (truthy deep_link_url); repeat split.
  - intros channel [<- | [<- | []]];
      (split; [ eexists; reflexivity | ]);
      destruct (truthy deep_link_url); split; reflexivity.
Qed.

Lemma envelope_has_three_channel_messages_witness :
  exists top,
    message_request [] "Hi" "there" None None None false None None
      = Ok (PyDict top)
    /\ dict_keys top = ["Endpoints"; "MessageConfiguration"]
    /\ channel_field (PyDict top) "DefaultPushNotificationMessage" "Title"
       = Ok (PyStr "Hi").
Proof.
  destruct (envelope_has_three_channel_messages [] "Hi" "there" None None None
              false None None eq_refl)
    as [top [configuration [Henv [Hkeys [_ [_ [_ [[Htitle _] _]]]]]]]].
  exists top. repeat split; assumption.
Defined.

(** ** Enrichment keeps the caller's entries in place *)

(** X10.  The enriched mapping lists the caller's keys first, in the caller's
    order, then ["deeplink"] and ["image_url"] when the caller did not have
    them: it has at most two entries more than the caller's mapping, and its
    keys are pairwise distinct when the caller's are. *)
Theorem prepare_custom_data_keeps_caller_keys_in_order
    (custom_data : option dict) (deep_link_url image_url : option string) :
  let caller := or_empty custom_data in
  let enriched := _prepare_custom_data custom_data deep_link_url image_url in
  dict_keys enriched
  = dict_keys caller
    ++ (if dict_has "deeplink" caller then [] else ["deeplink"])
    ++ (if dict_has "image_url" caller then [] else ["image_url"])
  /\ length caller <= length enriched <= length caller + 2
  /\ (dict_wf caller = true -> dict_wf enriched = true).
Proof.
  intros caller enriched.
  assert (Hkeys :
    dict_keys enriched
    = dict_keys caller
      ++ (if dict_has "deeplink" caller then [] else ["deeplink"])
      ++ (if dict_has "image_url" caller then [] else ["image_url"])).
  { unfold enriched. rewrite prepare_custom_data_unfold. fold caller.
    rewrite !dict_keys_set, dict_has_set. cbn [String.eqb Ascii.eqb Bool.eqb orb].
    destruct (dict_has "deeplink" caller), (dict_has "image_url" caller);
      rewrite ?app_nil_r, <- ?app_assoc; reflexivity. }
  split; [ exact Hkeys | split ].
  - apply (f_equal (@length string)) in Hkeys.
    unfold dict_keys in Hkeys. rewrite !length_app, !length_map in Hkeys.
    destruct (dict_has "deeplink" caller), (dict_has "image_url" caller);
      simpl in Hkeys; lia.
  - apply prepare_custom_data_wf.
Qed.

Lemma prepare_custom_data_keeps_caller_keys_in_order_witness :
  dict_wf
    (_prepare_custom_data
       (Some [("campaign", PyInt 7); ("image_url", PyStr "old")])
       (Some "app://home") None) = true
  /\ dict_keys
       (_prepare_custom_data
          (Some [("campaign", PyInt 7); ("image_url", PyStr "old")])
          (Some "app://home") None)
     = ["campaign"; "image_url"; "deeplink"].
Proof.
  pose proof (prepare_custom_data_keeps_caller_keys_in_order
                (Some [("campaign", PyInt 7); ("image_url", PyStr "old")])
                (Some "app://home") None) as [Hkeys [_ Hwf]].
  split; [ apply Hwf; reflexivity | exact Hkeys ].
Defined.
